(** * retrofeed: the feed rendering engine (feeds.py, retrofeed.py)

    A shallow embedding of the feed classes and of the sequencer, and the
    properties of the rendering engine proved over it.

    Conventions of the embedding.
    - A Python [str] is a [string]; the case and whitespace functions are the
      ASCII ones (a character outside ASCII is neither cased nor a space).
    - A Python [int] is a [Z].
    - A naive [datetime] is the number of microseconds elapsed since
      [datetime.min], so [datetime.min] is [0] and a [timedelta] is a
      difference of two such numbers.
    - A dict or a namespace keyed by attribute names is a [gmap string _].
    - An uncaught exception is [None]; effects on the terminal and calls of
      the data collaborators are recorded in an event log.
    - A delay is read and checked where [time.sleep] is called with it; how
      long a call sleeps is not part of the embedding. *)

From Stdlib Require Import ZArith Ascii String List Lia Bool.
From stdpp Require Import base option list gmap strings fin_maps pretty.

Open Scope Z_scope.

(* ===================================================================== *)
(** * Python built-ins used by the feeds *)
(* ===================================================================== *)

Module Py.

(** [len(s)] *)
Definition len (s : string) : Z := Z.of_nat (String.length s).

(** [s * n]: the empty string when [n <= 0]. *)
Fixpoint repeat_nat (s : string) (n : nat) : string :=
  match n with
  | O => ""
  | S n' => s +:+ repeat_nat s n'
  end.

Definition repeat (s : string) (n : Z) : string := repeat_nat s (Z.to_nat n).

(** [c.upper()] on one ASCII character. *)
Definition upper_char (c : ascii) : ascii :=
  let n := nat_of_ascii c in
  if ((97 <=? n)%nat && (n <=? 122)%nat)%bool then ascii_of_nat (n - 32) else c.

(** [s.upper()] *)
Fixpoint upper (s : string) : string :=
  match s with
  | EmptyString => EmptyString
  | String c s' => String (upper_char c) (upper s')
  end.

(** [c.isspace()] on one ASCII character: tab, newline, vertical tab, form
    feed, carriage return, the four separators 0x1c-0x1f and the space. *)
Definition is_space (c : ascii) : bool :=
  let n := nat_of_ascii c in
  (((9 <=? n)%nat && (n <=? 13)%nat) || ((28 <=? n)%nat && (n <=? 32)%nat))%bool.

Fixpoint lstrip (s : string) : string :=
  match s with
  | EmptyString => EmptyString
  | String c s' => if is_space c then lstrip s' else s
  end.

Fixpoint rstrip (s : string) : string :=
  match s with
  | EmptyString => EmptyString
  | String c s' =>
      match rstrip s' with
      | EmptyString => if is_space c then EmptyString else String c EmptyString
      | r => String c r
      end
  end.

(** [s.strip()] *)
Definition strip (s : string) : string := rstrip (lstrip s).

(** [needle in hay] on strings. *)
Fixpoint contains (needle hay : string) : bool :=
  if String.prefix needle hay then true
  else match hay with
       | EmptyString => false
       | String _ hay' => contains needle hay'
       end.

(** [f"{s:w}"] for a string [s]: left-aligned, padded with spaces up to
    width [w], never truncated. *)
Definition ljust (w : nat) (s : string) : string :=
  s +:+ repeat_nat " " (w - String.length s).

(** [f"{s:>w}"]: right-aligned. *)
Definition rjust (w : nat) (s : string) : string :=
  repeat_nat " " (w - String.length s) +:+ s.

(** [l[i]] on a list: a negative index counts from the end, an index out of
    range raises [IndexError] ([None]). *)
Definition index {A} (l : list A) (i : Z) : option A :=
  let n := Z.of_nat (length l) in
  if (0 <=? i) && (i <? n) then l !! Z.to_nat i
  else if (- n <=? i) && (i <? 0) then l !! Z.to_nat (n + i)
  else None.

(** [range(1, n + 1)] *)
Definition range1 (n : Z) : list Z :=
  map (fun k : nat => Z.of_nat (S k)) (seq 0 (Z.to_nat n)).

(** [str(n)] for an int. *)
Definition str (n : Z) : string := pretty n.

End Py.

(* ===================================================================== *)
(** * Configuration values and the configuration namespace *)
(* ===================================================================== *)

(** The values a parsed YAML option can hold. *)
#[warnings="-register-all"]
Inductive py_value : Type :=
| VNone
| VBool (b : bool)
| VInt (n : Z)
| VFloat (num : Z) (den : positive)   (* the finite float num / den *)
| VStr (s : string)
| VList (l : list py_value).

(** Truth value of an option used as a condition. *)
Definition truthy (v : py_value) : bool :=
  match v with
  | VNone => false
  | VBool b => b
  | VInt n => negb (n =? 0)
  | VFloat num _ => negb (num =? 0)
  | VStr s => negb (String.eqb s "")
  | VList l => match l with [] => false | _ => true end
  end.

(** [self.config]: a [SimpleNamespace], that is a dict from attribute names
    to values. *)
Abbreviation config := (gmap string py_value).

(** [self.config.k]: a missing attribute raises [AttributeError]. *)
Definition attr (cfg : config) (k : string) : option py_value := cfg !! k.

Definition attr_int (cfg : config) (k : string) : option Z :=
  match cfg !! k with Some (VInt n) => Some n | _ => None end.

Definition attr_str (cfg : config) (k : string) : option string :=
  match cfg !! k with Some (VStr s) => Some s | _ => None end.

Definition attr_truthy (cfg : config) (k : string) : option bool :=
  truthy <$> cfg !! k.

(** [BaseFeed.__init__]: the namespace is loaded from the [base] section by
    [_set_config], then [header] and [update_message] are set to [None]. *)
Definition BaseFeed_init (base : config) : config :=
  <["update_message" := VNone]> (<["header" := VNone]> base).

(** [BaseFeed._update_config]: [cfg = vars(self.config); cfg.update(dict)]. *)
Definition update_config (cfg overrides : config) : config :=
  overrides ∪ cfg.

(** The configuration of a feed built by [FeedClass(feed_config)]:
    [super().__init__()] followed by [self._update_config(config)]. *)
Definition feed_config (base overrides : config) : config :=
  update_config (BaseFeed_init base) overrides.

(** [resolve(base_layer, overrides)] as the specification words it: every
    key of the overrides replaces the base value, every other key keeps it. *)
Definition resolve_spec (base overrides : config) (k : string) : option py_value :=
  match overrides !! k with
  | Some v => Some v
  | None => base !! k
  end.

(* ===================================================================== *)
(** * BaseFeed._get_header *)
(* ===================================================================== *)

(** The marker count of [_get_header]: [int(x / 2)] truncates, and it is
    only reached with a positive numerator. *)
Definition num_markers (line_width : Z) (title : string) : Z :=
  if Py.len title + 4 <? line_width
  then Z.quot (line_width - 4 - Py.len title) 2
  else 0.

(** [_get_header(header)] for [header = (left_marker, string, right_marker)]. *)
Definition get_header (line_width : Z) (header : string * string * string) : string :=
  let '(left_marker, s, right_marker) := header in
  let s := Py.upper (Py.strip s) in
  let n := num_markers line_width s in
  Py.repeat left_marker n +:+ " " +:+ s +:+ " " +:+ Py.repeat right_marker n.

(* ===================================================================== *)
(** * DatetimeFeed._set_content *)
(* ===================================================================== *)

(** The suffix appended after the day number. *)
Definition day_suffix (day_num : Z) : string :=
  if existsb (Z.eqb day_num) [1; 21; 31] then "st"
  else if existsb (Z.eqb day_num) [2; 22] then "nd"
  else if existsb (Z.eqb day_num) [3; 23] then "rd"
  else "th".

(** [formatted] is [now.strftime(self.config.format)], [time_text] is
    [sp.format_time(now)] and [day_num] is [now.day]. *)
Definition Datetime_content (descriptive : bool) (formatted time_text : string)
    (day_num : Z) : list string :=
  let date_text := formatted +:+ Py.str day_num +:+ day_suffix day_num in
  if descriptive
  then ["It is " +:+ date_text; "Current time is " +:+ time_text]
  else [time_text +:+ " " +:+ date_text].

(* ===================================================================== *)
(** * FinanceFeed._set_content *)
(* ===================================================================== *)

(** One entry of [data['indexes']]; the collaborator hands the four fields
    over as display strings. *)
Record index_entry : Type := {
  ix_name : string;
  ix_price : string;
  ix_delta : string;
  ix_delta_pct : string
}.

(** The snapshot returned by [finance.get_finance]. *)
Record finance_data : Type := {
  fin_market_message : string;
  fin_fetched_on : Z;
  fin_indexes : list index_entry
}.

(** The three lines appended for one index by the body of the [for] loop. *)
Definition index_block (i : index_entry) : list string :=
  [ "";
    "    " +:+ Py.ljust 9 (ix_name i) +:+ "  " +:+ Py.rjust 9 (ix_price i);
    "               " +:+ Py.rjust 9 (ix_delta i) +:+ "  " +:+ ix_delta_pct i ].

(** The [for i in self.data['indexes']] loop, appending to [content]. *)
Fixpoint finance_loop (ixs : list index_entry) (content : list string) : list string :=
  match ixs with
  | [] => content
  | i :: ixs' => finance_loop ixs' (content ++ index_block i)
  end.

(** [format_time] is [sp.format_time] of modules/string_processing. *)
Definition Finance_content (format_time : Z -> string) (d : finance_data) : list string :=
  let content := [] in
  let content :=
    if Py.contains "CLOSED" (Py.upper (fin_market_message d))
    then content ++ [fin_market_message d]
    else content ++ ["As of " +:+ format_time (fin_fetched_on d)] in
  finance_loop (fin_indexes d) content.

(* ===================================================================== *)
(** * ISSFeed._set_content *)
(* ===================================================================== *)

Record sighting : Type := {
  s_date_time : Z;
  s_date_text : string;
  s_time_text : string;
  s_visible : string;
  s_max_height : string;
  s_appears : string;
  s_disappears : string
}.

(** The snapshot returned by [spot_the_station.get_sightings]. *)
Record iss_data : Type := {
  iss_fetched_on : Z;
  iss_location : string;
  iss_sightings : list sighting
}.

Definition sighting_block (s : sighting) : list string :=
  [ "";
    "    " +:+ s_date_text s +:+ " @ " +:+ s_time_text s;
    "      Visible for " +:+ s_visible s;
    "      Max height " +:+ s_max_height s +:+ " Degrees";
    "      From " +:+ s_appears s;
    "      To   " +:+ s_disappears s ].

(** The [for s in sightings] loop with its counter [num_shown]. *)
Fixpoint iss_loop (cutoff_dt max_sightings : Z) (ss : list sighting)
    (num_shown : Z) (content : list string) : list string :=
  match ss with
  | [] => content
  | s :: ss' =>
      if (cutoff_dt <=? s_date_time s) && (num_shown <? max_sightings)
      then iss_loop cutoff_dt max_sightings ss' (num_shown + 1)
             (content ++ sighting_block s)
      else iss_loop cutoff_dt max_sightings ss' num_shown content
  end.

(** [now] is the [dt.datetime.now()] read for [cutoff_dt]. *)
Definition ISS_content (max_sightings now : Z) (d : iss_data) : list string :=
  let content := [] in
  let sightings := iss_sightings d in
  if (length sightings =? 0)%nat
  then content ++ ["No ISS Sightings Available"]
  else
    let content := content ++ [iss_location d] in
    let content := content ++ ["Upcoming ISS Sightings:"] in
    iss_loop now max_sightings sightings 0 content.

(** A sighting qualifies when it starts at or after the present instant. *)
Definition qualifies (now : Z) (s : sighting) : bool := now <=? s_date_time s.

(* ===================================================================== *)
(** * WeatherFeed._set_content *)
(* ===================================================================== *)

Record period : Type := { p_timeframe : string; p_forecast : string }.

(** The snapshot returned by [weather.get_weather]. *)
Record weather_data : Type := {
  w_fetched_on : Z;
  w_location : string;
  w_last_update : string;
  w_hazards : list string;
  w_currently : string;
  w_temp_f : string;
  w_temp_c : string;
  w_wind_speed : string;
  w_visibility : string;
  w_dewpoint : string;
  w_comfort : string;
  w_periods : list period
}.

Definition Weather_content (line_width periods : Z) (d : weather_data) : list string :=
  let content :=
    [ "Weather at " +:+ w_location d; "As of " +:+ w_last_update d ] in
  let content :=
    content ++ flat_map (fun hazard => [""; "!!! " +:+ hazard]) (w_hazards d) in
  let content :=
    content ++
    [ "";
      "    Conditions   " +:+ w_currently d;
      "    Temperature  " +:+ w_temp_f d +:+ " (" +:+ w_temp_c d +:+ ")";
      "    Wind         " +:+ w_wind_speed d;
      "    Visibility   " +:+ w_visibility d;
      "    Dewpoint     " +:+ w_dewpoint d +:+ " " +:+ w_comfort d ] in
  let forecast_periods := Z.min periods (Z.of_nat (length (w_periods d))) in
  if 0 <? forecast_periods then
    let content := content ++ [""] in
    let content :=
      if 1 <? forecast_periods
      then content ++ [get_header line_width ("*", "Extended Forecast...", "*")]
      else content in
    content ++
    flat_map (fun p => [""; p_timeframe p; p_forecast p])
             (take (Z.to_nat forecast_periods) (w_periods d))
  else content.

(* ===================================================================== *)
(** * NewsFeed._set_content *)
(* ===================================================================== *)

Record news_item : Type := { headline : string; summary : string }.

(** The snapshot returned by [ap_news.get_news]. *)
Record news_data : Type := {
  news_fetched_on : Z;
  news_items : list news_item
}.

(** The state the loop of [_set_content] works on: the rotation cursor
    [self.current_index], the lines of [self.content], and a record of every
    index at which [self.data['items']] was subscripted, in order. *)
Record news_state : Type := {
  current_index : Z;
  content : list string;
  subscripts : list Z
}.

(** [self.data['items'][self.current_index]]: the subscript is recorded and
    [IndexError] is [None]. *)
Definition read_item (its : list news_item) (st : news_state)
  : option (news_item * news_state) :=
  it ← Py.index its (current_index st);
  Some (it, {| current_index := current_index st;
               content := content st;
               subscripts := subscripts st ++ [current_index st] |}).

Definition append_line (line : string) (st : news_state) : news_state :=
  {| current_index := current_index st;
     content := content st ++ [line];
     subscripts := subscripts st |}.

Definition set_index (c : Z) (st : news_state) : news_state :=
  {| current_index := c; content := content st; subscripts := subscripts st |}.

(** The body of [for i in range(1, items+1)]. *)
Definition news_body (its : list news_item) (show_summary : bool) (i : Z)
    (st : news_state) : option news_state :=
  let st := set_index (current_index st + i) st in
  let st :=
    if Z.of_nat (length its) <=? current_index st then set_index 0 st else st in
  let st := append_line "" st in
  '(it, st) ← read_item its st;
  let st := append_line (headline it) st in
  if show_summary then
    let st := append_line "" st in
    '(it, st) ← read_item its st;
    let st := append_line (summary it) st in
    Some (append_line "" st)
  else Some st.

Fixpoint news_loop (its : list news_item) (show_summary : bool) (rng : list Z)
    (st : news_state) : option news_state :=
  match rng with
  | [] => Some st
  | i :: rng' =>
      st' ← news_body its show_summary i st;
      news_loop its show_summary rng' st'
  end.

(** [NewsFeed._set_content], started with the cursor at [cursor]. *)
Definition News_content (cycle : bool) (items_wanted : Z) (show_summary : bool)
    (its : list news_item) (cursor : Z) : option news_state :=
  let st := {| current_index := cursor; content := []; subscripts := [] |} in
  let st := if negb cycle then set_index 0 st else st in
  let items := Z.min items_wanted (Z.of_nat (length its)) in
  news_loop its show_summary (Py.range1 items) st.

(* ===================================================================== *)
(** * Feed objects, collaborators and the event log *)
(* ===================================================================== *)

(** The feed classes that [FeedClass(feed_config)] can build. *)
Inductive feed_class : Type :=
| DatetimeFeed | FinanceFeed | NewsFeed | WeatherFeed | ISSFeed.

Global Instance feed_class_eq_dec : EqDecision feed_class.
Proof. solve_decision. Defined.

(** [self.data] once a collaborator has filled it. *)
Inductive snapshot : Type :=
| FinanceSnap (d : finance_data)
| NewsSnap (d : news_data)
| WeatherSnap (d : weather_data)
| ISSSnap (d : iss_data).

Definition snapshot_fetched_on (s : snapshot) : Z :=
  match s with
  | FinanceSnap d => fin_fetched_on d
  | NewsSnap d => news_fetched_on d
  | WeatherSnap d => w_fetched_on d
  | ISSSnap d => iss_fetched_on d
  end.

(** A feed instance. [f_data = None] is the initial [self.data = {}];
    [f_content = None] is the initial [self.content = None];
    [f_current_index] is [self.current_index] of a [NewsFeed] (unused by
    the other classes). *)
Record feed : Type := {
  f_class : feed_class;
  f_config : config;
  f_data : option snapshot;
  f_content : option (list string);
  f_current_index : Z
}.

(** What the feeds import from [modules], [datetime] and [textwrap]. The
    last argument of a fetcher is the instant of the call: the answer of a
    data source depends on when it is asked, and [None] is a failed fetch.
    [wrap s width] is [textwrap.wrap(s, width)] at a positive width: the
    lines it returns are no longer than the width, and it returns no line
    for a blank string. *)
Class Collaborators : Type := {
  wrap : string -> Z -> list string;
  format_time : Z -> string;
  strftime : string -> Z -> string;
  day_of : Z -> Z;
  get_finance : py_value -> Z -> option finance_data;
  get_news : Z -> option news_data;
  get_weather : py_value -> py_value -> py_value -> Z -> option weather_data;
  get_sightings : py_value -> py_value -> py_value -> Z -> option iss_data
}.

(** What a call leaves on the terminal and asks of the collaborators, each
    event standing for a step that was completed.
    - [PauseRow]: a row of blanks written by [_slown()];
    - [Print s]: the line [s] written by a [_slowp] that does not wrap;
    - [UpdateMsg label]: the text "[label...]" written by the five calls of
      [_slowp] in [_print_update_msg()] (the pause row that follows it is a
      [PauseRow] of its own);
    - [Fetch c]: the call of [_set_data()] of class [c];
    - [SegmentSleep]: [time.sleep(segment_delay)]. *)
Inductive event : Type :=
| PauseRow
| Print (s : string)
| UpdateMsg (label : py_value)
| Fetch (c : feed_class)
| SegmentSleep.

(** The call of a collaborator in the log. *)
Definition is_fetch (e : event) : bool :=
  match e with Fetch _ => true | _ => false end.

(** A computation that writes to the log and may raise: the log written so
    far is kept when it raises. *)
Definition M (A : Type) : Type := list event * option A.

Definition ret {A} (a : A) : M A := ([], Some a).

Definition bind {A B} (m : M A) (f : A -> M B) : M B :=
  match m with
  | (l, Some a) => let '(l', r) := f a in (l ++ l', r)
  | (l, None) => (l, None)
  end.

Definition emit (e : event) : M unit := ([e], Some tt).

(** An expression that raises when it is [None]. *)
Definition lift {A} (o : option A) : M A := ([], o).

Definition log {A} (m : M A) : list event := fst m.
Definition result {A} (m : M A) : option A := snd m.

(** Whether a computation invoked a fetch step. *)
Definition has_fetch {A} (m : M A) : bool := existsb is_fetch (log m).

(** The lines a computation wrote through [Print] events: the header and
    the content of a [show], not its update banner. *)
Definition printed {A} (m : M A) : list string :=
  omap (fun e => match e with Print s => Some s | _ => None end) (log m).

Declare Scope feed_scope.
Delimit Scope feed_scope with feed.
Notation "x <~ c1 ;; c2" := (bind c1 (fun x => c2))
  (at level 100, c1 at next level, right associativity) : feed_scope.
Notation "c1 ;;; c2" := (bind c1 (fun _ => c2))
  (at level 100, right associativity) : feed_scope.
Open Scope feed_scope.

(** [for x in l: body(x)] *)
Fixpoint for_each {A} (l : list A) (body : A -> M unit) : M unit :=
  match l with
  | [] => ret tt
  | x :: l' => body x ;;; for_each l' body
  end.

(* ===================================================================== *)
(** * The feed lifecycle: BaseFeed._refresh_data and BaseFeed.show *)
(* ===================================================================== *)

(** The length of [m] minutes in microseconds. *)
Definition minutes (m : Z) : Z := m * 60000000.

(** Whether [dt.timedelta(minutes=m)] exists: a [timedelta] lies between
    -999999999 days and 999999999 days, 23:59:59.999999, and the constructor
    raises [OverflowError] outside. *)
Definition timedelta_ok (m : Z) : bool :=
  (-1439999998560 <=? m) && (m <=? 1439999999999).

(** Whether [time.sleep(v)] returns: [v] is a number, not negative, and its
    nanoseconds fit the 64-bit timestamp of the C library; [time.sleep]
    raises [TypeError], [ValueError] or [OverflowError] otherwise. *)
Definition sleep_ok (v : py_value) : bool :=
  match v with
  | VBool _ => true
  | VInt n => (0 <=? n) && (n * 1000000000 <=? 9223372036854775807)
  | VFloat num den =>
      (0 <=? num) && (num * 1000000000 <=? 9223372036854775807 * Z.pos den)
  | _ => false
  end.

(** [self.data.get('fetched_on', dt.datetime.min)] *)
Definition fetched_on (data : option snapshot) : Z :=
  match data with
  | Some s => snapshot_fetched_on s
  | None => 0
  end.

(** The test of [_refresh_data]: [data_age >= dt.timedelta(minutes=refresh)]. *)
Definition stale (refresh now : Z) (data : option snapshot) : bool :=
  let data_age := now - fetched_on data in
  minutes refresh <=? data_age.

Definition with_data (o : feed) (d : snapshot) : feed :=
  {| f_class := f_class o; f_config := f_config o; f_data := Some d;
     f_content := f_content o; f_current_index := f_current_index o |}.

Definition with_content (o : feed) (c : list string) (cursor : Z) : feed :=
  {| f_class := f_class o; f_config := f_config o; f_data := f_data o;
     f_content := Some c; f_current_index := cursor |}.

(** [time.sleep(self.config.k)] *)
Definition sleep_for (cfg : config) (k : string) : M unit :=
  v <~ lift (attr cfg k) ;;
  if sleep_ok v then ret tt else lift None.

(** A width at which [random.randrange] draws and [textwrap.wrap] wraps:
    both raise [ValueError] on a width that is not positive. *)
Definition positive_width (line_width : Z) : M unit :=
  if 0 <? line_width then ret tt else lift None.

Section Lifecycle.
Context `{Collaborators}.

(** [_slown()]: a position is drawn in [range(line_width)]; the blanks are
    written with the newline delay after each and the pause time at the
    position drawn; the row is ended and the print delay slept. *)
Definition slown (cfg : config) : M unit :=
  line_width <~ lift (attr_int cfg "line_width") ;;
  positive_width line_width ;;;
  sleep_for cfg "newline_delay" ;;;
  sleep_for cfg "pause_time" ;;;
  emit PauseRow ;;;
  sleep_for cfg "print_delay".

(** The body of [_slowp] on a string that does not wrap: the characters and
    the terminator are written, the print delay slept after each. *)
Definition slowp_write (cfg : config) (s : string) : M unit :=
  sleep_for cfg "print_delay" ;;; emit (Print s).

(** [_slowp(s)]: a string longer than [line_width] is wrapped and each of
    its lines written by a call of its own, which does not wrap again. *)
Definition slowp (cfg : config) (s : string) : M unit :=
  line_width <~ lift (attr_int cfg "line_width") ;;
  if line_width <? Py.len s then
    positive_width line_width ;;;
    for_each (wrap s line_width) (slowp_write cfg)
  else slowp_write cfg s.

(** [_print_update_msg()]. Its first string, "[" followed by the label, is
    not blank: whether it wraps or not, writing it takes a positive width
    and the print delay. The dots and the closing bracket follow, each
    after the subsegment delay, then a pause row. *)
Definition print_update_msg (cfg : config) (label : py_value) : M unit :=
  line_width <~ lift (attr_int cfg "line_width") ;;
  positive_width line_width ;;;
  sleep_for cfg "print_delay" ;;;
  sleep_for cfg "subsegment_delay" ;;;
  emit (UpdateMsg label) ;;;
  slown cfg.

(** [_set_data] of each class; [DatetimeFeed] inherits the one of
    [BaseFeed], which raises [NotImplementedError]. *)
Definition set_data (now : Z) (o : feed) : M feed :=
  let cfg := f_config o in
  emit (Fetch (f_class o)) ;;;
  match f_class o with
  | DatetimeFeed => lift None
  | FinanceFeed =>
      symbols <~ lift (attr cfg "symbols") ;;
      d <~ lift (get_finance symbols now) ;;
      ret (with_data o (FinanceSnap d))
  | NewsFeed =>
      d <~ lift (get_news now) ;;
      ret (with_data o (NewsSnap d))
  | WeatherFeed =>
      lat <~ lift (attr cfg "lat") ;;
      lon <~ lift (attr cfg "lon") ;;
      location <~ lift (attr cfg "location") ;;
      d <~ lift (get_weather lat lon location now) ;;
      ret (with_data o (WeatherSnap d))
  | ISSFeed =>
      country <~ lift (attr cfg "country") ;;
      region <~ lift (attr cfg "region") ;;
      city <~ lift (attr cfg "city") ;;
      d <~ lift (get_sightings country region city now) ;;
      ret (with_data o (ISSSnap d))
  end.

(** [BaseFeed._refresh_data], overridden by [DatetimeFeed] to do nothing.
    [now] is the [dt.datetime.now()] it reads. *)
Definition refresh_data (now : Z) (o : feed) : M feed :=
  match f_class o with
  | DatetimeFeed => ret o
  | _ =>
      let cfg := f_config o in
      refresh <~ lift (attr_int cfg "refresh") ;;
      (if timedelta_ok refresh then ret tt else lift None) ;;;
      if stale refresh now (f_data o) then
        verbose <~ lift (attr_truthy cfg "verbose_updates") ;;
        (if verbose then
           label <~ lift (attr cfg "update_message") ;;
           match label with
           | VNone => ret tt
           | _ => print_update_msg cfg label
           end
         else ret tt) ;;;
        set_data now o
      else ret o
  end.

(** [_set_content] of each class. [now] is the [dt.datetime.now()] read by
    the clock and by the sightings filter. An option of the configuration
    is read where the source reads it, so a missing option raises only on
    the paths that reach it. *)
Definition set_content (now : Z) (o : feed) : M feed :=
  let cfg := f_config o in
  match f_class o with
  | DatetimeFeed =>
      fmt <~ lift (attr_str cfg "format") ;;
      descriptive <~ lift (attr_truthy cfg "descriptive") ;;
      ret (with_content o
             (Datetime_content descriptive (strftime fmt now)
                (format_time now) (day_of now))
             (f_current_index o))
  | FinanceFeed =>
      match f_data o with
      | Some (FinanceSnap d) =>
          ret (with_content o (Finance_content format_time d) (f_current_index o))
      | _ => lift None
      end
  | NewsFeed =>
      cycle <~ lift (attr_truthy cfg "cycle") ;;
      items_wanted <~ lift (attr_int cfg "items") ;;
      match f_data o with
      | Some (NewsSnap d) =>
          show_summary <~
            lift (if 0 <? Z.min items_wanted (Z.of_nat (length (news_items d)))
                  then attr_truthy cfg "show_summary" else Some false) ;;
          st <~ lift (News_content cycle items_wanted show_summary
                        (news_items d) (f_current_index o)) ;;
          ret (with_content o (content st) (current_index st))
      | _ => lift None
      end
  | WeatherFeed =>
      match f_data o with
      | Some (WeatherSnap d) =>
          periods <~ lift (attr_int cfg "periods") ;;
          line_width <~
            lift (if 1 <? Z.min periods (Z.of_nat (length (w_periods d)))
                  then attr_int cfg "line_width" else Some 0) ;;
          ret (with_content o (Weather_content line_width periods d)
                 (f_current_index o))
      | _ => lift None
      end
  | ISSFeed =>
      match f_data o with
      | Some (ISSSnap d) =>
          max_sightings <~
            lift (if existsb (qualifies now) (iss_sightings d)
                  then attr_int cfg "max_sightings" else Some 0) ;;
          ret (with_content o (ISS_content max_sightings now d)
                 (f_current_index o))
      | _ => lift None
      end
  end.

(** [self.config.header] as the triple [_get_header] unpacks. *)
Definition as_header (v : py_value) : option (string * string * string) :=
  match v with
  | VList [VStr l; VStr s; VStr r] => Some (l, s, r)
  | _ => None
  end.

(** [BaseFeed.show]. [now_refresh] and [now_content] are the two readings
    of the clock, in [_refresh_data] and in [_set_content]. *)
Definition show (now_refresh now_content : Z) (o : feed) : M feed :=
  let cfg := f_config o in
  slown cfg ;;;
  slown cfg ;;;
  o <~ refresh_data now_refresh o ;;
  o <~ set_content now_content o ;;
  header <~ lift (attr cfg "header") ;;
  match header with
  | VNone => ret tt
  | _ =>
      h <~ lift (as_header header) ;;
      line_width <~ lift (attr_int cfg "line_width") ;;
      slowp cfg (get_header line_width h)
  end ;;;
  slown cfg ;;;
  for_each (default [] (f_content o))
    (fun line => if String.eqb line "" then slown cfg else slowp cfg line) ;;;
  slown cfg ;;;
  sleep_for cfg "segment_delay" ;;;
  emit SegmentSleep ;;;
  ret o.

End Lifecycle.

(* ===================================================================== *)
(** * The sequencer: construct_sequence and one pass of the main loop *)
(* ===================================================================== *)

(** The parsed config.yaml: the [base] section, the [sequence] list and the
    sections of the named feeds. *)
Record yaml_cfg : Type := {
  cfg_base : config;
  cfg_sequence : list string;
  cfg_feeds : gmap string config
}.

(** [globals()[name]] followed by the call [feed_class(feed_config)]: only
    the five feed classes accept the configuration dict and yield a feed. *)
Definition class_of_name (name : string) : option feed_class :=
  if String.eqb name "DatetimeFeed" then Some DatetimeFeed
  else if String.eqb name "FinanceFeed" then Some FinanceFeed
  else if String.eqb name "NewsFeed" then Some NewsFeed
  else if String.eqb name "WeatherFeed" then Some WeatherFeed
  else if String.eqb name "ISSFeed" then Some ISSFeed
  else None.

(** [FeedClass.__init__(config)]: [BaseFeed.__init__] loads the base section
    again from the same file; [NewsFeed] also sets [current_index = 0]. *)
Definition new_feed (base : config) (cls : feed_class) (overrides : config) : feed :=
  {| f_class := cls;
     f_config := feed_config base overrides;
     f_data := None;
     f_content := None;
     f_current_index := 0 |}.

(** Objects live in a heap and are named by their address; a Python
    variable, list cell or dict value holding a feed holds its address. *)
Abbreviation addr := nat.

(** The variables of [construct_sequence] and the objects it allocated. *)
Record builder : Type := {
  sequence : list addr;
  instances : gmap string addr;
  heap : list feed
}.

(** The body of [for feed in cfg['sequence']]. *)
Definition construct_step (cfg : yaml_cfg) (b : builder) (name : string)
  : option builder :=
  match instances b !! name with
  | Some a =>
      Some {| sequence := sequence b ++ [a];
              instances := instances b;
              heap := heap b |}
  | None =>
      fc ← cfg_feeds cfg !! name;
      class_name ← attr_str fc "feed_class";
      cls ← class_of_name class_name;
      let a := length (heap b) in
      Some {| sequence := sequence b ++ [a];
              instances := <[name := a]> (instances b);
              heap := heap b ++ [new_feed (cfg_base cfg) cls fc] |}
  end.

Fixpoint construct_loop (cfg : yaml_cfg) (names : list string) (b : builder)
  : option builder :=
  match names with
  | [] => Some b
  | name :: names' =>
      b' ← construct_step cfg b name;
      construct_loop cfg names' b'
  end.

(** [construct_sequence()]: the returned list of references, together with
    the heap that holds the objects they refer to. *)
Definition construct_sequence (cfg : yaml_cfg) : option (list addr * list feed) :=
  b ← construct_loop cfg (cfg_sequence cfg)
        {| sequence := []; instances := ∅; heap := [] |};
  Some (sequence b, heap b).

Section MainLoop.
Context `{Collaborators}.

(** The wall clock: the [k]-th [show] of the run reads [clock (2 * k)] in
    [_refresh_data] and [clock (2 * k + 1)] in [_set_content]. *)
Variable clock : nat -> Z.

(** [feed.show()] on the object at address [a]: the object is updated in
    place. *)
Definition show_at (k : nat) (a : addr) (h : list feed) : M (list feed) :=
  o <~ lift (h !! a) ;;
  o' <~ show (clock (2 * k)) (clock (2 * k + 1)) o ;;
  ret (<[a := o']> h).

(** [for feed in feed_sequence: feed.show()], the shows being numbered
    from [k]. *)
Fixpoint run_pass (k : nat) (seq : list addr) (h : list feed) : M (list feed) :=
  match seq with
  | [] => ret h
  | a :: seq' =>
      h' <~ show_at k a h ;;
      run_pass (S k) seq' h'
  end.

End MainLoop.

(** The class a name of the sequence resolves to, through its section of
    the configuration. *)
Definition feed_class_of (cfg : yaml_cfg) (name : string) : option feed_class :=
  fc ← cfg_feeds cfg !! name;
  class_name ← attr_str fc "feed_class";
  class_of_name class_name.

Definition configured (cfg : yaml_cfg) (name : string) : Prop :=
  is_Some (feed_class_of cfg name).

(** What holds of the builder once the names [done] have been processed. *)
Definition builder_inv (done : list string) (b : builder) : Prop :=
  length (sequence b) = length done /\
  (forall (i : nat) name, done !! i = Some name ->
     exists a, sequence b !! i = Some a /\ instances b !! name = Some a) /\
  (forall name a, instances b !! name = Some a -> (a < length (heap b))%nat) /\
  (forall n1 n2 a, instances b !! n1 = Some a -> instances b !! n2 = Some a -> n1 = n2).

(* ===================================================================== *)
(** * The news rotation as the specification words it *)
(* ===================================================================== *)

(** Advance the cursor by [i]; back to [0] when the advance reaches or
    passes the item count [n]. *)
Definition advance (n c i : Z) : Z :=
  if n <=? c + i then 0 else c + i.

(** The cursor after the [j] first entries of one call started at [c]: the
    [j]-th entry advances by the 1-based counter [j]. *)
Fixpoint cursor_at (n c : Z) (j : nat) : Z :=
  match j with
  | O => c
  | S j' => advance n (cursor_at n c j') (Z.of_nat j)
  end.

(** The lines of one entry: a blank row and the headline, then the summary
    between two blank rows when summaries are shown. *)
Definition entry (show_summary : bool) (it : news_item) : list string :=
  [""; headline it] ++ (if show_summary then [""; summary it; ""] else []).

(** The contents built by [m] calls of [_set_content] in a row on one
    snapshot, each call starting from the cursor the previous one left. *)
Fixpoint News_calls (m : nat) (cycle : bool) (items_wanted : Z)
    (show_summary : bool) (its : list news_item) (cursor : Z)
  : option (list (list string)) :=
  match m with
  | O => Some []
  | S m' =>
      st ← News_content cycle items_wanted show_summary its cursor;
      rest ← News_calls m' cycle items_wanted show_summary its (current_index st);
      Some (content st :: rest)
  end.

(** The subscripts of one entry: the item is read once for its headline
    and once more for its summary. *)
Definition entry_subscripts (show_summary : bool) (c : Z) : list Z :=
  if show_summary then [c; c] else [c].

(** The items picked by the entries [j+1 .. j+m] of a call started at [c]. *)
Definition picked (its : list news_item) (c : Z) (j m : nat) : list news_item :=
  omap (fun q => its !! Z.to_nat (cursor_at (Z.of_nat (length its)) c q))
       (seq (S j) m).

(* ===================================================================== *)
(** * A sample installation, used by the examples *)
(* ===================================================================== *)

Definition sample_items : list news_item :=
  [ {| headline := "Headline A"; summary := "Summary A" |};
    {| headline := "Headline B"; summary := "Summary B" |};
    {| headline := "Headline C"; summary := "Summary C" |};
    {| headline := "Headline D"; summary := "Summary D" |};
    {| headline := "Headline E"; summary := "Summary E" |} ].

(** Collaborators of which only the news source answers; no string of the
    examples is long enough to be wrapped. *)
Definition sample_collaborators : Collaborators :=
  {| wrap := fun s _ => [s];
     format_time := fun _ => "12:00 PM";
     strftime := fun _ _ => "Wednesday, November ";
     day_of := fun _ => 4;
     get_finance := fun _ _ => None;
     get_news := fun t => Some {| news_fetched_on := t; news_items := sample_items |};
     get_weather := fun _ _ _ _ => None;
     get_sightings := fun _ _ _ _ => None |}.

(** The [base] section, with a refresh interval of [refresh] minutes. *)
Definition sample_base (refresh : Z) : config :=
  list_to_map
    [ ("line_width", VInt 40); ("refresh", VInt refresh);
      ("verbose_updates", VBool true);
      ("print_delay", VFloat 1 50); ("newline_delay", VFloat 1 50);
      ("pause_time", VInt 0); ("subsegment_delay", VFloat 1 2);
      ("segment_delay", VInt 1) ].

Definition sample_news : config :=
  list_to_map
    [ ("feed_class", VStr "NewsFeed"); ("items", VInt 2);
      ("cycle", VBool true); ("show_summary", VBool false);
      ("update_message", VStr "Updating news") ].

Definition sample_clock : config :=
  list_to_map
    [ ("feed_class", VStr "DatetimeFeed"); ("format", VStr "%A, %B ");
      ("descriptive", VBool false) ].

Definition sample_cfg (names : list string) : yaml_cfg :=
  {| cfg_base := sample_base 30;
     cfg_sequence := names;
     cfg_feeds := list_to_map [("news", sample_news); ("clock", sample_clock)] |}.

(** 4 November 2026, 00:00, in microseconds since [datetime.min]. *)
Definition sample_now : Z := 63929347200000000.

(** A news feed of the sample installation holding the snapshot [data]. *)
Definition sample_news_feed (refresh : Z) (data : option snapshot) : feed :=
  {| f_class := NewsFeed;
     f_config := feed_config (sample_base refresh) sample_news;
     f_data := data;
     f_content := None;
     f_current_index := 0 |}.

(** The wall clock of the examples: one microsecond per reading. *)
Definition sample_clock_readings (k : nat) : Z := sample_now + Z.of_nat k.

(* ===================================================================== *)
(** * The timed output primitives, character by character *)
(* ===================================================================== *)














(* ===================================================================== *)
(** * Notions used by the further properties *)
(* ===================================================================== *)

(** The sum [1 + 2 + ... + j]. *)
Fixpoint triangular (j : nat) : Z :=
  match j with
  | O => 0
  | S j' => triangular j' + Z.of_nat j
  end.

(** The update banner [_refresh_data] renders before a fetch: the text of
    [_print_update_msg] and the pause row that ends it. *)
Definition banner (cfg : config) : list event :=
  match attr_truthy cfg "verbose_updates", attr cfg "update_message" with
  | Some true, Some VNone => []
  | Some true, Some label => [UpdateMsg label; PauseRow]
  | _, _ => []
  end.

(** The option [k] is configured and [time.sleep] accepts it. *)
Definition sleep_valid (cfg : config) (k : string) : Prop :=
  exists v, attr cfg k = Some v /\ sleep_ok v = true.

(** What [_slown] and [_slowp] need of the configuration to return: a
    positive line width and the three delays they sleep. *)
Definition rows_ok (cfg : config) : Prop :=
  (exists lw, attr_int cfg "line_width" = Some lw /\ 0 < lw) /\
  sleep_valid cfg "newline_delay" /\
  sleep_valid cfg "pause_time" /\
  sleep_valid cfg "print_delay".

(** What [_slowp(s)] writes at the line width [lw]. *)
Definition slowp_events `{Collaborators} (lw : Z) (s : string) : list event :=
  if lw <? Py.len s then map Print (wrap s lw) else [Print s].

(** What [show] writes for the content [c]: a pause row for an empty line,
    the line through [_slowp] otherwise. *)
Definition content_events `{Collaborators} (lw : Z) (c : list string) : list event :=
  flat_map (fun line => if String.eqb line "" then [PauseRow] else slowp_events lw line) c.

(** What [show] writes for the header, if a header is configured. *)
Definition header_events `{Collaborators} (cfg : config) : list event :=
  match attr cfg "header", attr_int cfg "line_width" with
  | Some header, Some line_width =>
      match as_header header with
      | Some h => slowp_events line_width (get_header line_width h)
      | None => []
      end
  | _, _ => []
  end.

(** The values the rotation cursor of a news feed can hold: [__init__] sets
    it to 0, and only [_set_content] assigns it afterwards. The options are
    those of the feed, fixed at construction; the snapshot may be another
    one at each call. *)
Inductive reachable (cycle : bool) (items_wanted : Z) (show_summary : bool)
  : Z -> Prop :=
| reach_init : reachable cycle items_wanted show_summary 0
| reach_call (c : Z) (its : list news_item) (st : news_state) :
    reachable cycle items_wanted show_summary c ->
    News_content cycle items_wanted show_summary its c = Some st ->
    reachable cycle items_wanted show_summary (current_index st).

(** Collaborators that stamp a snapshot with the instant they were asked. *)
Definition stamps (H : Collaborators) : Prop :=
  (forall symbols t d, get_finance symbols t = Some d -> fin_fetched_on d = t) /\
  (forall t d, get_news t = Some d -> news_fetched_on d = t) /\
  (forall lat lon loc t d, get_weather lat lon loc t = Some d -> w_fetched_on d = t) /\
  (forall c r ci t d, get_sightings c r ci t = Some d -> iss_fetched_on d = t).

(** What holds of the objects the builder allocated. *)
Definition objects_inv (cfg : yaml_cfg) (b : builder) : Prop :=
  (forall name a, instances b !! name = Some a ->
     exists fc cls,
       cfg_feeds cfg !! name = Some fc /\
       feed_class_of cfg name = Some cls /\
       heap b !! a = Some (new_feed (cfg_base cfg) cls fc)) /\
  (forall a, (a < length (heap b))%nat -> exists i, sequence b !! i = Some a).


(* ===================================================================== *)
(** * Properties *)
(* ===================================================================== *)

(** ** Strings *)

Lemma length_append (s t : string) :
  String.length (s +:+ t) = (String.length s + String.length t)%nat.
Proof. induction s as [| c s IH]; simpl; [reflexivity | now rewrite IH]. Qed.

Lemma length_repeat_nat (s : string) (n : nat) :
  String.length (Py.repeat_nat s n) = (n * String.length s)%nat.
Proof.
  induction n as [| n IH]; simpl; [reflexivity |].
  rewrite length_append, IH. lia.
Qed.

Lemma len_append (s t : string) : Py.len (s +:+ t) = Py.len s + Py.len t.
Proof. unfold Py.len. rewrite length_append. lia. Qed.

Lemma len_repeat (s : string) (n : Z) :
  Py.len (Py.repeat s n) = Z.max 0 n * Py.len s.
Proof. unfold Py.len, Py.repeat. rewrite length_repeat_nat. lia. Qed.

Lemma len_nonneg (s : string) : 0 <= Py.len s.
Proof. unfold Py.len. lia. Qed.

(** ** The clock feed *)

(** C7. For a day of the month between 1 and 31 the suffix is "st" exactly
    on 1, 21 and 31, "nd" exactly on 2 and 22, "rd" exactly on 3 and 23, and
    "th" on every other day; 11, 12 and 13 are among the latter. *)
Theorem day_suffix_table (d : Z) :
  1 <= d <= 31 ->
  (d = 1 \/ d = 21 \/ d = 31 -> day_suffix d = "st") /\
  (d = 2 \/ d = 22 -> day_suffix d = "nd") /\
  (d = 3 \/ d = 23 -> day_suffix d = "rd") /\
  (~ In d [1; 21; 31; 2; 22; 3; 23] -> day_suffix d = "th") /\
  (d = 11 \/ d = 12 \/ d = 13 -> day_suffix d = "th").
Proof.
  intros Hd.
  assert (Hcases : In d (map Z.of_nat (seq 1 31))).
  { apply in_map_iff. exists (Z.to_nat d). split; [lia |].
    apply in_seq. lia. }
  simpl in Hcases.
  repeat (destruct Hcases as [<- | Hcases];
          [ repeat split; intros Hc; try reflexivity;
            try (exfalso; simpl in Hc; lia);
            try (exfalso; apply Hc; simpl; tauto) | ]).
  destruct Hcases.
Qed.

Lemma day_suffix_table_witness :
  1 <= 12 <= 31 /\ day_suffix 12 = "th".
Proof.
  split; [lia |].
  apply (day_suffix_table 12); [lia | right; left; reflexivity].
Defined.

(** The suffix closes the date text of both forms of the clock content. *)
Lemma Datetime_content_compact (formatted time_text : string) (d : Z) :
  Datetime_content false formatted time_text d =
  [time_text +:+ " " +:+ formatted +:+ Py.str d +:+ day_suffix d].
Proof. reflexivity. Qed.

(** ** The configuration scope *)

Lemma feed_config_lookup (base overrides : config) (k : string) :
  feed_config base overrides !! k =
  match overrides !! k with
  | Some v => Some v
  | None =>
      if decide (k = "header" \/ k = "update_message")
      then Some VNone else base !! k
  end.
Proof.
  unfold feed_config, update_config, BaseFeed_init.
  rewrite lookup_union.
  destruct (overrides !! k) as [v |] eqn:Hov.
  - now rewrite union_Some_l.
  - rewrite (left_id None _).
    destruct (decide (k = "header" \/ k = "update_message")) as [[-> | ->] | Hne].
    + rewrite lookup_insert_ne by discriminate. apply lookup_insert_eq.
    + apply lookup_insert_eq.
    + rewrite !lookup_insert_ne by (intros <-; tauto). reflexivity.
Qed.

(** C3, amended. The configuration of a constructed feed maps every key of
    the overrides to its override value; a key absent from the overrides
    keeps its base value, except [header] and [update_message], which are
    then [None] whatever the base layer holds. *)
Theorem new_feed_config (base overrides : config) (cls : feed_class) (k : string) :
  f_config (new_feed base cls overrides) !! k =
  match overrides !! k with
  | Some v => Some v
  | None =>
      if decide (k = "header" \/ k = "update_message")
      then Some VNone else resolve_spec base overrides k
  end.
Proof.
  simpl. rewrite feed_config_lookup. unfold resolve_spec.
  destruct (overrides !! k); reflexivity.
Qed.

(** C3 as stated fails: a header of the base layer does not reach a feed
    whose overrides leave [header] out. *)
Lemma new_feed_config_counterexample :
  let base : config := {[ "header" := VList [VStr "*"; VStr "News"; VStr "*"] ]} in
  let overrides : config := {[ "feed_class" := VStr "NewsFeed" ]} in
  overrides !! "header" = None /\
  base !! "header" = Some (VList [VStr "*"; VStr "News"; VStr "*"]) /\
  f_config (new_feed base NewsFeed overrides) !! "header" = Some VNone /\
  f_config (new_feed base NewsFeed overrides) !! "header"
    <> resolve_spec base overrides "header".
Proof. vm_compute. repeat split; discriminate. Qed.

(** ** The segment header *)

Lemma num_markers_fit (lw : Z) (t : string) :
  0 <= num_markers lw t /\ (Py.len t + 4 <= lw -> 2 * num_markers lw t + Py.len t + 4 <= lw).
Proof.
  unfold num_markers. pose proof (len_nonneg t) as Hl.
  destruct (Z.ltb_spec (Py.len t + 4) lw) as [Hlt | Hge].
  - assert (Hq := Z.mul_quot_le (lw - 4 - Py.len t) 2 ltac:(lia) ltac:(lia)).
    lia.
  - lia.
Qed.


Lemma len_get_header (lw : Z) (l t r : string) :
  let T := Py.upper (Py.strip t) in
  Py.len (get_header lw (l, t, r)) =
  num_markers lw T * (Py.len l + Py.len r) + Py.len T + 2.
Proof.
  intros T. unfold get_header. fold T.
  destruct (num_markers_fit lw T) as [Hn _].
  rewrite !len_append, !len_repeat, (Z.max_r 0 _ Hn).
  change (Py.len " ") with 1. lia.
Qed.




(** ** The finance feed *)

Lemma finance_loop_app (ixs : list index_entry) (content : list string) :
  finance_loop ixs content = content ++ flat_map index_block ixs.
Proof.
  revert content. induction ixs as [| i ixs IH]; intros content; simpl.
  - now rewrite app_nil_r.
  - rewrite IH. now rewrite <- app_assoc.
Qed.

(** C1, amended. When the market message contains "CLOSED" in any case, the
    message stands in place of the "As of" line: the content is the message
    followed by the three lines of every index of the snapshot, so it is
    the message alone exactly when the snapshot has no index. *)
Theorem Finance_content_closed (format_time : Z -> string) (d : finance_data) :
  Py.contains "CLOSED" (Py.upper (fin_market_message d)) = true ->
  Finance_content format_time d =
    fin_market_message d :: flat_map index_block (fin_indexes d) /\
  (Finance_content format_time d = [fin_market_message d] <-> fin_indexes d = []).
Proof.
  intros Hclosed. unfold Finance_content. rewrite Hclosed.
  rewrite finance_loop_app. simpl. split; [reflexivity |].
  split.
  - intros Heq. destruct (fin_indexes d) as [| i ixs]; [reflexivity |].
    simpl in Heq. discriminate.
  - intros ->. reflexivity.
Qed.

Lemma Finance_content_closed_witness :
  let d := {| fin_market_message := "Market is closed for holiday";
              fin_fetched_on := 0;
              fin_indexes := [] |} in
  Finance_content (fun _ => "12:00 PM") d = ["Market is closed for holiday"].
Proof.
  intros d.
  apply (Finance_content_closed (fun _ => "12:00 PM") d); reflexivity.
Defined.

(** C1 as stated fails: the index blocks follow the message. *)
Lemma Finance_content_counterexample :
  let d := {| fin_market_message := "Market is CLOSED for holiday";
              fin_fetched_on := 0;
              fin_indexes := [ {| ix_name := "DJIA"; ix_price := "39,000.00";
                                  ix_delta := "+12.50"; ix_delta_pct := "(+0.03%)" |} ] |} in
  Py.contains "CLOSED" (Py.upper (fin_market_message d)) = true /\
  Finance_content (fun _ => "12:00 PM") d =
    [ "Market is CLOSED for holiday";
      "";
      "    DJIA       39,000.00";
      "                  +12.50  (+0.03%)" ] /\
  Finance_content (fun _ => "12:00 PM") d <> [fin_market_message d].
Proof. vm_compute. repeat split; discriminate. Qed.

(** ** The satellite feed *)

(** The guard of [_set_content]: a snapshot whose list of sightings is
    empty yields the single line "No ISS Sightings Available", without the
    location header. *)
Lemma ISS_content_empty (max_sightings now : Z) (d : iss_data) :
  iss_sightings d = [] ->
  ISS_content max_sightings now d = ["No ISS Sightings Available"].
Proof. intros Hnil. unfold ISS_content. rewrite Hnil. reflexivity. Qed.

Lemma iss_loop_skip (cutoff max_sightings : Z) (ss : list sighting)
    (num_shown : Z) (content : list string) :
  forallb (fun s => negb (qualifies cutoff s)) ss = true ->
  iss_loop cutoff max_sightings ss num_shown content = content.
Proof.
  revert num_shown content.
  induction ss as [| s ss IH]; intros num_shown content Hnone; simpl in *.
  - reflexivity.
  - apply andb_prop in Hnone as [Hs Hss]. unfold qualifies in Hs.
    apply negb_true_iff in Hs. rewrite Hs. simpl. now apply IH.
Qed.

(** What the feed shows when sightings are listed and none qualifies: the
    two header lines and nothing below them. *)
Lemma ISS_content_none_qualifies (max_sightings now : Z) (d : iss_data) :
  iss_sightings d <> [] ->
  forallb (fun s => negb (qualifies now s)) (iss_sightings d) = true ->
  ISS_content max_sightings now d = [iss_location d; "Upcoming ISS Sightings:"].
Proof.
  intros Hne Hnone. unfold ISS_content.
  destruct (iss_sightings d) as [| s ss] eqn:Hss; [congruence |].
  simpl length. simpl Nat.eqb. cbv iota.
  now rewrite iss_loop_skip.
Qed.

(** C2. The code departs from the specification, and from the comment of
    its own guard ("Exit early if nothing to show"): the guard tests the
    length of the snapshot's list, not whether a sighting qualifies.
    On 4 November 2026, with one sighting in the snapshot, of the day
    before, no sighting qualifies and none is listed; the content is the
    location and the heading "Upcoming ISS Sightings:" over nothing, not
    the single line "No ISS Sightings Available". *)
Theorem ISS_content_past_sighting :
  let past := {| s_date_time := sample_now - 86400000000;
                 s_date_text := "Tue Nov 3";
                 s_time_text := "6:12 PM"; s_visible := "4 min";
                 s_max_height := "61"; s_appears := "10 above WSW";
                 s_disappears := "28 above NE" |} in
  let d := {| iss_fetched_on := sample_now - 60000000;
              iss_location := "Duluth, MN";
              iss_sightings := [past] |} in
  existsb (qualifies sample_now) (iss_sightings d) = false /\
  ISS_content 3 sample_now d = ["Duluth, MN"; "Upcoming ISS Sightings:"] /\
  ISS_content 3 sample_now d <> ["No ISS Sightings Available"].
Proof. vm_compute. repeat split; discriminate. Qed.

(** ** The event log *)

Lemma log_bind {A B} (m : M A) (f : A -> M B) :
  log (bind m f) =
  log m ++ match result m with Some a => log (f a) | None => [] end.
Proof.
  destruct m as [l [a |]]; simpl.
  - destruct (f a) as [l' r]. reflexivity.
  - now rewrite app_nil_r.
Qed.

Lemma has_fetch_bind {A B} (m : M A) (f : A -> M B) :
  has_fetch (bind m f) =
  has_fetch m || match result m with Some a => has_fetch (f a) | None => false end.
Proof.
  unfold has_fetch. rewrite log_bind, existsb_app.
  destruct (result m); reflexivity.
Qed.

Lemma has_fetch_lift {A B} (o : option A) (f : A -> M B) :
  has_fetch (bind (lift o) f) =
  match o with Some a => has_fetch (f a) | None => false end.
Proof. rewrite has_fetch_bind. reflexivity. Qed.

Lemma has_fetch_emit {B} (e : event) (f : unit -> M B) :
  has_fetch (bind (emit e) f) = is_fetch e || has_fetch (f tt).
Proof. rewrite has_fetch_bind. unfold has_fetch. simpl. now rewrite orb_false_r. Qed.

Lemma no_fetch_bind {A B} (m : M A) (f : A -> M B) :
  has_fetch m = false -> (forall a, has_fetch (f a) = false) ->
  has_fetch (bind m f) = false.
Proof.
  intros Hm Hf. rewrite has_fetch_bind, Hm. simpl.
  destruct (result m); [apply Hf | reflexivity].
Qed.

Lemma no_fetch_lift {A} (o : option A) : has_fetch (lift o) = false.
Proof. reflexivity. Qed.

Lemma no_fetch_ret {A} (a : A) : has_fetch (ret a) = false.
Proof. reflexivity. Qed.

Lemma no_fetch_for_each {A} (l : list A) (body : A -> M unit) :
  (forall x, has_fetch (body x) = false) -> has_fetch (for_each l body) = false.
Proof.
  intros Hbody. induction l as [| x l IH]; simpl.
  - reflexivity.
  - apply no_fetch_bind; [apply Hbody | intros _; exact IH].
Qed.

Ltac no_fetch :=
  repeat first
    [ reflexivity
    | apply no_fetch_lift
    | apply no_fetch_ret
    | apply no_fetch_bind; [| intros ?] ].

(** ** The steps of a computation *)

Lemma bind_Some_inv {A B} (m : M A) (f : A -> M B) (l : list event) (b : B) :
  bind m f = (l, Some b) ->
  exists l1 a l2, m = (l1, Some a) /\ f a = (l2, Some b) /\ l = l1 ++ l2.
Proof.
  destruct m as [l1 [a |]]; simpl; [| discriminate].
  destruct (f a) as [l2 r] eqn:Hf. intros [= <- ->].
  exists l1, a, l2. auto.
Qed.

Lemma bind_lift_Some {A B} (a : A) (f : A -> M B) : bind (lift (Some a)) f = f a.
Proof. unfold bind, lift. destruct (f a). reflexivity. Qed.

Lemma bind_ret {A B} (a : A) (f : A -> M B) : bind (ret a) f = f a.
Proof. unfold bind, ret. destruct (f a). reflexivity. Qed.

Lemma bind_emit {B} (e : event) (f : unit -> M B) :
  bind (emit e) f = (e :: log (f tt), result (f tt)).
Proof. unfold bind, emit. destruct (f tt). reflexivity. Qed.

Lemma bind_Some {A B} (m : M A) (f : A -> M B) (l : list event) (a : A) :
  m = (l, Some a) -> bind m f = (l ++ log (f a), result (f a)).
Proof. intros ->. unfold bind. destruct (f a). reflexivity. Qed.

Lemma emit_inv (e : event) (l : list event) (u : unit) :
  emit e = (l, Some u) -> l = [e].
Proof. now intros [= <-]. Qed.

Lemma for_each_emit {A} (l : list A) (body : A -> M unit) (g : A -> event) :
  (forall x, body x = emit (g x)) -> for_each l body = (map g l, Some tt).
Proof.
  intros Hbody. induction l as [| x l IH]; [reflexivity |].
  simpl. rewrite Hbody, bind_emit, IH. reflexivity.
Qed.

Lemma for_each_events {A} (l : list A) (body : A -> M unit) (g : A -> list event) :
  (forall x, body x = (g x, Some tt)) -> for_each l body = (flat_map g l, Some tt).
Proof.
  intros Hbody. induction l as [| x l IH]; [reflexivity |].
  simpl. rewrite (bind_Some _ _ _ _ (Hbody x)), IH. reflexivity.
Qed.

(** ** Sleeping and the line width *)

Lemma sleep_for_valid (cfg : config) (k : string) :
  sleep_valid cfg k -> sleep_for cfg k = ret tt.
Proof.
  intros (v & Hv & Hok). unfold sleep_for.
  rewrite Hv, bind_lift_Some, Hok. reflexivity.
Qed.

Lemma sleep_for_inv (cfg : config) (k : string) (l : list event) (u : unit) :
  sleep_for cfg k = (l, Some u) -> l = [] /\ sleep_valid cfg k.
Proof.
  unfold sleep_for, sleep_valid.
  destruct (attr cfg k) as [v |]; [| discriminate].
  rewrite bind_lift_Some.
  destruct (sleep_ok v) eqn:Hok; [| discriminate].
  intros [= <-]. eauto.
Qed.

Lemma no_fetch_sleep_for (cfg : config) (k : string) :
  has_fetch (sleep_for cfg k) = false.
Proof.
  unfold sleep_for. apply no_fetch_bind; [reflexivity | intros v].
  destruct (sleep_ok v); reflexivity.
Qed.

Lemma positive_width_ok (lw : Z) : 0 < lw -> positive_width lw = ret tt.
Proof.
  intros Hlw. unfold positive_width.
  now rewrite (proj2 (Z.ltb_lt 0 lw) Hlw).
Qed.

Lemma positive_width_inv (lw : Z) (l : list event) (u : unit) :
  positive_width lw = (l, Some u) -> l = [] /\ 0 < lw.
Proof.
  unfold positive_width. destruct (0 <? lw) eqn:Hlw; [| discriminate].
  intros [= <-]. split; [reflexivity | now apply Z.ltb_lt].
Qed.

Lemma no_fetch_positive_width (lw : Z) : has_fetch (positive_width lw) = false.
Proof. unfold positive_width. destruct (0 <? lw); reflexivity. Qed.

(** ** The rows, the lines and the banner *)

Section Rows.
Context `{Collaborators}.

(** With a positive width and its three delays, [_slown] writes its row. *)
Lemma slown_ok (cfg : config) : rows_ok cfg -> slown cfg = emit PauseRow.
Proof.
  intros ((lw & Hlw & Hpos) & Hnd & Hpt & Hpd). unfold slown.
  rewrite Hlw, bind_lift_Some, (positive_width_ok lw Hpos).
  rewrite !(sleep_for_valid cfg) by assumption.
  reflexivity.
Qed.

(** And it returns in no other configuration. *)
Lemma slown_inv (cfg : config) (l : list event) (u : unit) :
  slown cfg = (l, Some u) -> l = [PauseRow] /\ rows_ok cfg.
Proof.
  unfold slown. intros Hs.
  apply bind_Some_inv in Hs as (? & lw & ? & [= <- Hlw] & Hs & ->).
  apply bind_Some_inv in Hs as (? & [] & ? & Hpw & Hs & ->).
  apply positive_width_inv in Hpw as [-> Hpos].
  apply bind_Some_inv in Hs as (? & [] & ? & Hnd & Hs & ->).
  apply sleep_for_inv in Hnd as [-> Hnd].
  apply bind_Some_inv in Hs as (? & [] & ? & Hpt & Hs & ->).
  apply sleep_for_inv in Hpt as [-> Hpt].
  apply bind_Some_inv in Hs as (? & [] & ? & He & Hs & ->).
  apply emit_inv in He as ->.
  apply sleep_for_inv in Hs as [-> Hpd].
  split; [reflexivity |].
  split; [exists lw; auto | auto].
Qed.

Lemma no_fetch_slown (cfg : config) : has_fetch (slown cfg) = false.
Proof.
  unfold slown.
  apply no_fetch_bind; [reflexivity | intros lw].
  apply no_fetch_bind; [apply no_fetch_positive_width | intros _].
  apply no_fetch_bind; [apply no_fetch_sleep_for | intros _].
  apply no_fetch_bind; [apply no_fetch_sleep_for | intros _].
  apply no_fetch_bind; [reflexivity | intros _].
  apply no_fetch_sleep_for.
Qed.

Lemma slowp_write_ok (cfg : config) (s : string) :
  sleep_valid cfg "print_delay" -> slowp_write cfg s = emit (Print s).
Proof.
  intros Hpd. unfold slowp_write. rewrite (sleep_for_valid _ _ Hpd). reflexivity.
Qed.

Lemma no_fetch_slowp_write (cfg : config) (s : string) :
  has_fetch (slowp_write cfg s) = false.
Proof.
  unfold slowp_write.
  apply no_fetch_bind; [apply no_fetch_sleep_for | intros _; reflexivity].
Qed.

(** With a positive width and the print delay, [_slowp] writes its string,
    wrapped if it is longer than the width. *)
Lemma slowp_ok (cfg : config) (lw : Z) (s : string) :
  attr_int cfg "line_width" = Some lw -> 0 < lw ->
  sleep_valid cfg "print_delay" ->
  slowp cfg s = (slowp_events lw s, Some tt).
Proof.
  intros Hlw Hpos Hpd. unfold slowp, slowp_events.
  rewrite Hlw, bind_lift_Some.
  destruct (lw <? Py.len s).
  - rewrite (positive_width_ok lw Hpos), bind_ret.
    apply for_each_emit. intros x. now apply slowp_write_ok.
  - now apply slowp_write_ok.
Qed.

Lemma no_fetch_slowp (cfg : config) (s : string) : has_fetch (slowp cfg s) = false.
Proof.
  unfold slowp. apply no_fetch_bind; [reflexivity | intros lw].
  destruct (lw <? Py.len s); [| apply no_fetch_slowp_write].
  apply no_fetch_bind; [apply no_fetch_positive_width | intros _].
  apply no_fetch_for_each. intros x. apply no_fetch_slowp_write.
Qed.

Lemma no_fetch_slowp_events (lw : Z) (s : string) :
  existsb is_fetch (slowp_events lw s) = false.
Proof.
  unfold slowp_events. destruct (lw <? Py.len s); [| reflexivity].
  induction (wrap s lw) as [| x l IH]; [reflexivity | exact IH].
Qed.

Lemma no_fetch_content_events (lw : Z) (c : list string) :
  existsb is_fetch (content_events lw c) = false.
Proof.
  unfold content_events. induction c as [| x c IH]; [reflexivity |].
  cbn [flat_map]. rewrite existsb_app, IH, orb_false_r.
  destruct (String.eqb x ""); [reflexivity | apply no_fetch_slowp_events].
Qed.

Lemma no_fetch_header_events (cfg : config) :
  existsb is_fetch (header_events cfg) = false.
Proof.
  unfold header_events.
  destruct (attr cfg "header") as [header |]; [| reflexivity].
  destruct (attr_int cfg "line_width") as [lw |]; [| reflexivity].
  destruct (as_header header); [apply no_fetch_slowp_events | reflexivity].
Qed.

(** With the rows and the subsegment delay, [_print_update_msg] writes the
    banner and its pause row. *)
Lemma print_update_msg_ok (cfg : config) (label : py_value) :
  rows_ok cfg -> sleep_valid cfg "subsegment_delay" ->
  print_update_msg cfg label = ([UpdateMsg label; PauseRow], Some tt).
Proof.
  intros Hrows Hsd.
  pose proof Hrows as ((lw & Hlw & Hpos) & _ & _ & Hpd).
  unfold print_update_msg.
  rewrite Hlw, bind_lift_Some, (positive_width_ok lw Hpos), (slown_ok cfg Hrows).
  rewrite !(sleep_for_valid cfg) by assumption.
  reflexivity.
Qed.

Lemma print_update_msg_inv (cfg : config) (label : py_value)
    (l : list event) (u : unit) :
  print_update_msg cfg label = (l, Some u) ->
  l = [UpdateMsg label; PauseRow] /\
  rows_ok cfg /\ sleep_valid cfg "subsegment_delay".
Proof.
  unfold print_update_msg. intros Hp.
  apply bind_Some_inv in Hp as (? & lw & ? & [= <- Hlw] & Hp & ->).
  apply bind_Some_inv in Hp as (? & [] & ? & Hpw & Hp & ->).
  apply positive_width_inv in Hpw as [-> Hpos].
  apply bind_Some_inv in Hp as (? & [] & ? & Hpd & Hp & ->).
  apply sleep_for_inv in Hpd as [-> Hpd].
  apply bind_Some_inv in Hp as (? & [] & ? & Hsd & Hp & ->).
  apply sleep_for_inv in Hsd as [-> Hsd].
  apply bind_Some_inv in Hp as (? & [] & ? & He & Hp & ->).
  apply emit_inv in He as ->.
  apply slown_inv in Hp as [-> Hrows].
  auto.
Qed.

Lemma no_fetch_print_update_msg (cfg : config) (label : py_value) :
  has_fetch (print_update_msg cfg label) = false.
Proof.
  unfold print_update_msg.
  apply no_fetch_bind; [reflexivity | intros lw].
  apply no_fetch_bind; [apply no_fetch_positive_width | intros _].
  apply no_fetch_bind; [apply no_fetch_sleep_for | intros _].
  apply no_fetch_bind; [apply no_fetch_sleep_for | intros _].
  apply no_fetch_bind; [reflexivity | intros _].
  apply no_fetch_slown.
Qed.

End Rows.

(** ** The refresh gate *)

Section Refresh.
Context `{Collaborators}.

Lemma no_fetch_set_content (now : Z) (o : feed) :
  has_fetch (set_content now o) = false.
Proof.
  unfold set_content.
  destruct (f_class o); no_fetch;
    destruct (f_data o) as [[d | d | d | d] |]; no_fetch.
Qed.

Lemma has_fetch_set_data (now : Z) (o : feed) :
  has_fetch (set_data now o) = true.
Proof. unfold set_data. now rewrite has_fetch_emit. Qed.

(** The fetch step logs one [Fetch]; when it returns, it has replaced the
    data and nothing else. *)
Lemma set_data_spec (now : Z) (o : feed) :
  log (set_data now o) = [Fetch (f_class o)] /\
  forall o1, result (set_data now o) = Some o1 ->
    exists s, o1 = with_data o s.
Proof.
  unfold set_data.
  destruct (f_class o); unfold bind, lift, emit, ret, log, result;
    repeat case_match; simplify_eq/=; split; try reflexivity;
    intros o1 Ho1; simplify_eq/=; eauto.
Qed.

Lemma set_data_stamped (now : Z) (o o1 : feed) :
  stamps H -> result (set_data now o) = Some o1 ->
  fetched_on (f_data o1) = now.
Proof.
  intros (Hfin & Hnews & Hw & Hiss). unfold set_data.
  destruct (f_class o); unfold bind, lift, emit, ret, log, result;
    repeat case_match; simplify_eq/=; intros Ho1; simplify_eq/=; eauto.
Qed.

(** The content step logs nothing; when it returns, it has replaced the
    content, and the cursor of a news feed, and nothing else. *)
Lemma set_content_spec (now : Z) (o : feed) :
  log (set_content now o) = [] /\
  forall o2, result (set_content now o) = Some o2 ->
    exists c cursor,
      o2 = with_content o c cursor /\
      (f_class o <> NewsFeed -> cursor = f_current_index o).
Proof.
  unfold set_content.
  destruct (f_class o); unfold bind, lift, emit, ret, log, result;
    repeat case_match; simplify_eq/=; split; try reflexivity;
    intros o2 Ho2; simplify_eq/=;
    eexists _, _; (split; [reflexivity | first [congruence | intros; reflexivity]]).
Qed.

(** What [_refresh_data] does when the interval is one [dt.timedelta]
    accepts and the banner, if shown, can be written. *)
Lemma refresh_data_spec (now R : Z) (o : feed) :
  f_class o <> DatetimeFeed ->
  rows_ok (f_config o) ->
  sleep_valid (f_config o) "subsegment_delay" ->
  attr_int (f_config o) "refresh" = Some R ->
  timedelta_ok R = true ->
  is_Some (attr (f_config o) "verbose_updates") ->
  is_Some (attr (f_config o) "update_message") ->
  refresh_data now o =
    if stale R now (f_data o)
    then (banner (f_config o) ++ [Fetch (f_class o)], result (set_data now o))
    else ([], Some o).
Proof.
  intros Hcls Hrows Hsd HR Htd [v Hv] [u Hu].
  destruct (set_data_spec now o) as [Hlog _].
  assert (Hgen :
    (refresh <~ lift (attr_int (f_config o) "refresh") ;;
     (if timedelta_ok refresh then ret tt else lift None) ;;;
     if stale refresh now (f_data o) then
       verbose <~ lift (attr_truthy (f_config o) "verbose_updates") ;;
       (if verbose then
          label <~ lift (attr (f_config o) "update_message") ;;
          match label with
          | VNone => ret tt
          | _ => print_update_msg (f_config o) label
          end
        else ret tt) ;;;
       set_data now o
     else ret o) =
    if stale R now (f_data o)
    then (banner (f_config o) ++ [Fetch (f_class o)], result (set_data now o))
    else ([], Some o)).
  { rewrite HR, bind_lift_Some, Htd, bind_ret.
    unfold banner, attr_truthy. unfold attr in *.
    rewrite Hv, Hu.
    change (truthy <$> Some v) with (Some (truthy v)).
    destruct (stale R now (f_data o)); [| reflexivity].
    rewrite bind_lift_Some.
    destruct (set_data now o) as [ld rd] eqn:Hsd'. simpl in Hlog. subst ld.
    destruct (truthy v); [| reflexivity].
    rewrite bind_lift_Some.
    destruct u; rewrite ?(print_update_msg_ok _ _ Hrows Hsd); reflexivity. }
  unfold refresh_data. destruct (f_class o); try exact Hgen. congruence.
Qed.

(** When [_refresh_data] returns, either it did nothing, or it wrote the
    banner, if any, then fetched, and replaced the data. *)
Lemma refresh_data_inv (now : Z) (o o1 : feed) (l : list event) :
  refresh_data now o = (l, Some o1) ->
  (l = [] /\ o1 = o) \/
  (result (set_data now o) = Some o1 /\
   (l = [Fetch (f_class o)] \/
    exists label, l = [UpdateMsg label; PauseRow; Fetch (f_class o)])).
Proof.
  unfold refresh_data. intros Hr.
  destruct (set_data_spec now o) as [Hlog _].
  destruct (f_class o) eqn:Hcls; [injection Hr as <- <-; now left | ..].
  all: apply bind_Some_inv in Hr as (? & refresh & ? & [= <- _] & Hr & ->);
    apply bind_Some_inv in Hr as (? & [] & ? & Hg & Hr & ->);
    destruct (timedelta_ok refresh); [| discriminate Hg];
    injection Hg as <-;
    destruct (stale refresh now (f_data o)); [| injection Hr as <- <-; now left];
    apply bind_Some_inv in Hr as (? & verbose & ? & [= <- _] & Hr & ->);
    apply bind_Some_inv in Hr as (lb & [] & ld & Hb & Hr & ->);
    rewrite Hr in Hlog |- *; simpl in Hlog; subst ld;
    right; split; [reflexivity |];
    destruct verbose; [| injection Hb as <-; now left];
    apply bind_Some_inv in Hb as (? & label & ? & [= <- _] & Hb & ->);
    destruct label;
    first [ injection Hb as <-; now left
          | apply print_update_msg_inv in Hb as (-> & _ & _); right; eauto ].
Qed.

(** [_refresh_data] fetches exactly when the data is stale. *)
Lemma has_fetch_refresh_data (now R : Z) (o : feed) :
  f_class o <> DatetimeFeed ->
  rows_ok (f_config o) ->
  sleep_valid (f_config o) "subsegment_delay" ->
  attr_int (f_config o) "refresh" = Some R ->
  timedelta_ok R = true ->
  is_Some (attr (f_config o) "verbose_updates") ->
  is_Some (attr (f_config o) "update_message") ->
  has_fetch (refresh_data now o) = stale R now (f_data o).
Proof.
  intros Hcls Hrows Hsd HR Htd Hv Hu.
  rewrite (refresh_data_spec now R) by assumption.
  destruct (stale R now (f_data o)); [| reflexivity].
  unfold has_fetch, log. cbn [fst].
  rewrite existsb_app. cbn [existsb is_fetch]. now rewrite orb_true_r.
Qed.

(** And whatever the configuration, it fetches only stale data. *)
Lemma has_fetch_refresh_stale (now R : Z) (o : feed) :
  attr_int (f_config o) "refresh" = Some R ->
  has_fetch (refresh_data now o) = true ->
  stale R now (f_data o) = true.
Proof.
  intros HR. unfold refresh_data.
  destruct (f_class o); [discriminate | ..].
  all: rewrite has_fetch_lift, HR, has_fetch_bind;
    destruct (timedelta_ok R); [| discriminate];
    cbn [has_fetch log result ret fst snd existsb orb];
    destruct (stale R now (f_data o)); [reflexivity | discriminate].
Qed.

(** What follows the refresh step in [show] calls no collaborator. *)
Ltac no_fetch_tail :=
  apply no_fetch_bind; [apply no_fetch_set_content | intros ?];
  apply no_fetch_bind; [reflexivity | intros [| | | | |]];
  (apply no_fetch_bind;
   [ first [ reflexivity
           | apply no_fetch_bind; [reflexivity | intros ?];
             apply no_fetch_bind; [reflexivity | intros ?];
             apply no_fetch_slowp ]
   | intros _ ]);
  (apply no_fetch_bind; [first [reflexivity | apply no_fetch_slown] | intros _]);
  (apply no_fetch_bind;
   [ apply no_fetch_for_each; intros line;
     destruct (String.eqb line "");
     [first [reflexivity | apply no_fetch_slown] | apply no_fetch_slowp]
   | intros _ ]);
  (apply no_fetch_bind; [first [reflexivity | apply no_fetch_slown] | intros _]);
  (apply no_fetch_bind; [apply no_fetch_sleep_for | intros _]);
  no_fetch.

(** A [show] that fetches has fetched in its refresh step. *)
Lemma has_fetch_show_refresh (nr nc : Z) (o : feed) :
  has_fetch (show nr nc o) = true -> has_fetch (refresh_data nr o) = true.
Proof.
  unfold show.
  rewrite has_fetch_bind, no_fetch_slown.
  destruct (result (slown (f_config o))); [| discriminate]. cbn [orb].
  rewrite has_fetch_bind, no_fetch_slown.
  destruct (result (slown (f_config o))); [| discriminate]. cbn [orb].
  rewrite has_fetch_bind.
  destruct (has_fetch (refresh_data nr o)); [reflexivity |]. cbn [orb].
  destruct (result (refresh_data nr o)) as [o1 |]; [| discriminate].
  intros Hf. rewrite <- Hf. symmetry. no_fetch_tail.
Qed.

(** When [show] reaches the gate and the gate can be evaluated, [show]
    fetches exactly when the data is stale. *)
Lemma has_fetch_show (now nowc R : Z) (o : feed) :
  f_class o <> DatetimeFeed ->
  rows_ok (f_config o) ->
  sleep_valid (f_config o) "subsegment_delay" ->
  attr_int (f_config o) "refresh" = Some R ->
  timedelta_ok R = true ->
  is_Some (attr (f_config o) "verbose_updates") ->
  is_Some (attr (f_config o) "update_message") ->
  has_fetch (show now nowc o) = stale R now (f_data o).
Proof.
  intros Hcls Hrows Hsd HR Htd Hv Hu. unfold show.
  rewrite (slown_ok _ Hrows).
  rewrite !has_fetch_emit. cbn [is_fetch orb].
  rewrite has_fetch_bind, (has_fetch_refresh_data now R) by assumption.
  destruct (stale R now (f_data o)); [reflexivity |]. cbn [orb].
  destruct (result (refresh_data now o)) as [o1 |]; [| reflexivity].
  no_fetch_tail.
Qed.

End Refresh.

(** The gate of [_refresh_data], seen from [show]: with a configuration on
    which [show] reaches the gate and a refresh interval [dt.timedelta]
    accepts, the fetch step is invoked if and only if
    [now - fetched_on >= refresh] minutes, missing data counting as fetched
    at [datetime.min]: data fetched [refresh - eps] ago is not fetched
    again, data fetched [refresh + eps] ago is, for every [eps > 0]. *)
Lemma show_fetch_gate `{Collaborators} (o : feed) (R now nowc : Z) :
  f_class o <> DatetimeFeed ->
  rows_ok (f_config o) ->
  sleep_valid (f_config o) "subsegment_delay" ->
  attr_int (f_config o) "refresh" = Some R ->
  timedelta_ok R = true ->
  is_Some (attr (f_config o) "verbose_updates") ->
  is_Some (attr (f_config o) "update_message") ->
  (has_fetch (show now nowc o) = true <->
     minutes R <= now - fetched_on (f_data o)) /\
  (forall eps, 0 < eps ->
     fetched_on (f_data o) = now - (minutes R - eps) ->
     has_fetch (show now nowc o) = false) /\
  (forall eps, 0 < eps ->
     fetched_on (f_data o) = now - (minutes R + eps) ->
     has_fetch (show now nowc o) = true) /\
  (f_data o = None -> minutes R <= now -> has_fetch (show now nowc o) = true).
Proof.
  intros Hcls Hrows Hsd HR Htd Hv Hu.
  rewrite (has_fetch_show now nowc R) by assumption.
  unfold stale. repeat split.
  - intros Hs. apply Z.leb_le in Hs. exact Hs.
  - intros Hs. apply Z.leb_le. exact Hs.
  - intros eps Heps Hf. apply Z.leb_gt. lia.
  - intros eps Heps Hf. apply Z.leb_le. lia.
  - intros Hnone Hle. rewrite Hnone. simpl. apply Z.leb_le. lia.
Qed.

(** The sample news feed is configured for all of this. *)
Lemma sample_news_feed_ok (refresh : Z) (data : option snapshot) :
  let cfg := f_config (sample_news_feed refresh data) in
  rows_ok cfg /\
  sleep_valid cfg "subsegment_delay" /\
  sleep_valid cfg "segment_delay" /\
  attr_int cfg "line_width" = Some 40 /\
  attr_int cfg "refresh" = Some refresh /\
  attr cfg "verbose_updates" = Some (VBool true) /\
  attr cfg "update_message" = Some (VStr "Updating news").
Proof.
  unfold rows_ok, sleep_valid.
  repeat split; try (eexists; split; [reflexivity | first [lia | reflexivity]]);
    reflexivity.
Qed.

Example show_fetch_gate_sample :
  let fresh := Some (NewsSnap {| news_fetched_on := sample_now - (minutes 30 - 1);
                                 news_items := sample_items |}) in
  let old := Some (NewsSnap {| news_fetched_on := sample_now - (minutes 30 + 1);
                               news_items := sample_items |}) in
  has_fetch (show (H := sample_collaborators) sample_now sample_now
               (sample_news_feed 30 fresh)) = false /\
  has_fetch (show (H := sample_collaborators) sample_now sample_now
               (sample_news_feed 30 old)) = true /\
  has_fetch (show (H := sample_collaborators) sample_now sample_now
               (sample_news_feed 30 None)) = true.
Proof. vm_compute. repeat split. Qed.

(** C6. The code departs from the specification on missing data, which
    is to be maximally stale and always fetched: a feed that never fetched
    is given the age [now - datetime.min], about
    1 065 000 000 minutes in 2026, not an age above every interval. With
    the sample configuration, in which every option [show] reads is set,
    and a refresh interval of 2 000 000 000 minutes, which [dt.timedelta]
    accepts, [show] writes its two pause rows, does not call the fetch
    step, and raises in the content step, which finds no data. With an
    interval of 30 minutes the same feed fetches. *)
Theorem show_missing_data_no_fetch :
  let o := sample_news_feed 2000000000 None in
  f_data o = None /\
  attr_int (f_config o) "refresh" = Some 2000000000 /\
  timedelta_ok 2000000000 = true /\
  stale 2000000000 sample_now (f_data o) = false /\
  show (H := sample_collaborators) sample_now sample_now o =
    ([PauseRow; PauseRow], None) /\
  has_fetch (show (H := sample_collaborators) sample_now sample_now o) = false /\
  has_fetch (show (H := sample_collaborators) sample_now sample_now
               (sample_news_feed 30 None)) = true.
Proof. vm_compute. repeat split. Qed.

(** ** The news rotation *)

Lemma index_in_range {A} (l : list A) (i : Z) :
  0 <= i < Z.of_nat (length l) ->
  exists x, l !! Z.to_nat i = Some x /\ Py.index l i = Some x.
Proof.
  intros Hi. unfold Py.index.
  destruct (Z.leb_spec 0 i); [| lia].
  destruct (Z.ltb_spec i (Z.of_nat (length l))); [| lia]. simpl.
  destruct (lookup_lt_is_Some_2 l (Z.to_nat i)) as [x Hx]; [lia |].
  exists x. split; assumption.
Qed.

Lemma advance_range (n c i : Z) :
  0 < n -> 0 <= c -> 0 < i -> 0 <= advance n c i < n.
Proof.
  intros Hn Hc Hi. unfold advance.
  destruct (Z.leb_spec n (c + i)); lia.
Qed.

Lemma cursor_at_nonneg (n c : Z) (j : nat) :
  0 < n -> 0 <= c -> 0 <= cursor_at n c j.
Proof.
  intros Hn Hc. induction j as [| j IH]; [exact Hc |].
  change (0 <= advance n (cursor_at n c j) (Z.of_nat (S j))).
  apply advance_range; lia.
Qed.

Lemma cursor_at_range (n c : Z) (j : nat) :
  0 < n -> 0 <= c -> (0 < j)%nat -> 0 <= cursor_at n c j < n.
Proof.
  intros Hn Hc Hj. destruct j as [| j]; [lia |].
  change (0 <= advance n (cursor_at n c j) (Z.of_nat (S j)) < n).
  apply advance_range; [lia | now apply cursor_at_nonneg | lia].
Qed.

Lemma news_body_ok (its : list news_item) (ss : bool) (i : Z) (st : news_state) :
  let n := Z.of_nat (length its) in
  let c' := advance n (current_index st) i in
  0 < n -> 0 <= current_index st -> 0 < i ->
  exists it,
    its !! Z.to_nat c' = Some it /\
    news_body its ss i st =
      Some {| current_index := c';
              content := content st ++ entry ss it;
              subscripts := subscripts st ++ entry_subscripts ss c' |}.
Proof.
  intros n c' Hn Hc Hi.
  destruct (index_in_range its c') as (it & Hit & Hidx).
  { apply advance_range; assumption. }
  exists it. split; [exact Hit |].
  assert (Hcur :
    current_index
      (if n <=? current_index (set_index (current_index st + i) st)
       then set_index 0 (set_index (current_index st + i) st)
       else set_index (current_index st + i) st) = c').
  { subst c'. unfold advance. simpl.
    destruct (n <=? current_index st + i); reflexivity. }
  unfold news_body. fold n.
  set (st2 := if n <=? current_index (set_index (current_index st + i) st)
              then _ else _) in *.
  assert (Hct : content st2 = content st).
  { subst st2. destruct (n <=? _); reflexivity. }
  assert (Hsub : subscripts st2 = subscripts st).
  { subst st2. destruct (n <=? _); reflexivity. }
  unfold read_item, append_line, entry, entry_subscripts. simpl.
  rewrite Hcur, Hidx. simpl.
  destruct ss; simpl.
  - rewrite Hidx. simpl. rewrite Hct, Hsub.
    rewrite <- !app_assoc. reflexivity.
  - rewrite Hct, Hsub. rewrite <- !app_assoc. reflexivity.
Qed.

Lemma news_loop_ok (its : list news_item) (ss : bool) (c : Z) :
  let n := Z.of_nat (length its) in
  0 < n -> 0 <= c ->
  forall (m j : nat) (st : news_state),
    current_index st = cursor_at n c j ->
    exists st',
      news_loop its ss (map (fun k : nat => Z.of_nat (S k)) (seq j m)) st = Some st' /\
      current_index st' = cursor_at n c (j + m) /\
      length (picked its c j m) = m /\
      content st' = content st ++ flat_map (entry ss) (picked its c j m) /\
      subscripts st' =
        subscripts st ++
        flat_map (fun q => entry_subscripts ss (cursor_at n c q)) (seq (S j) m).
Proof.
  intros n Hn Hc m.
  induction m as [| m IH]; intros j st Hst.
  - exists st. simpl. rewrite Nat.add_0_r, !app_nil_r. repeat split; auto.
  - destruct (news_body_ok its ss (Z.of_nat (S j)) st) as (it & Hit & Hbody);
      [exact Hn | rewrite Hst; now apply cursor_at_nonneg | lia |].
    fold n in Hit, Hbody. rewrite Hst in Hit, Hbody.
    change (advance n (cursor_at n c j) (Z.of_nat (S j)))
      with (cursor_at n c (S j)) in Hit, Hbody.
    set (st1 := {| current_index := cursor_at n c (S j);
                   content := content st ++ entry ss it;
                   subscripts := subscripts st ++
                                 entry_subscripts ss (cursor_at n c (S j)) |}) in *.
    destruct (IH (S j) st1 eq_refl) as (st' & Hloop & Hcur & Hlen & Hct & Hsub).
    exists st'.
    assert (Hpick : picked its c j (S m) = it :: picked its c (S j) m).
    { unfold picked. fold n. change (seq (S j) (S m)) with (S j :: seq (S (S j)) m).
      cbn [omap list_omap]. rewrite Hit. reflexivity. }
    repeat split.
    + simpl. rewrite Hbody. simpl. exact Hloop.
    + rewrite Hcur. f_equal. lia.
    + rewrite Hpick. simpl. now rewrite Hlen.
    + rewrite Hct, Hpick. simpl content. simpl flat_map.
      now rewrite <- app_assoc.
    + rewrite Hsub. simpl subscripts. simpl flat_map.
      now rewrite <- app_assoc.
Qed.

(** One call on a non-empty item list, from a cursor that is not negative. *)
Lemma News_content_run (cycle : bool) (w : Z) (ss : bool)
    (its : list news_item) (c : Z) :
  let n := Z.of_nat (length its) in
  let k := Z.to_nat (Z.min w n) in
  let c0 := if cycle then c else 0 in
  0 < n -> 0 <= c ->
  exists st,
    News_content cycle w ss its c = Some st /\
    current_index st = cursor_at n c0 k /\
    length (picked its c0 0 k) = k /\
    content st = flat_map (entry ss) (picked its c0 0 k) /\
    subscripts st =
      flat_map (fun q => entry_subscripts ss (cursor_at n c0 q)) (seq 1 k).
Proof.
  intros n k c0 Hn Hc.
  assert (Hc0 : 0 <= c0) by (subst c0; destruct cycle; lia).
  set (st0 := {| current_index := c0; content := []; subscripts := [] |}).
  destruct (news_loop_ok its ss c0 Hn Hc0 k 0%nat st0 eq_refl)
    as (st & Hloop & Hcur & Hlen & Hct & Hsub).
  exists st. repeat split; try assumption.
  unfold News_content, Py.range1. fold n k.
  replace (if negb cycle then _ else _) with st0; [exact Hloop |].
  subst st0 c0. destruct cycle; reflexivity.
Qed.

Lemma nonempty_length {A} (l : list A) : l <> [] -> 0 < Z.of_nat (length l).
Proof. destruct l; [congruence | simpl; lia]. Qed.

(** C4. With cycle enabled and a non-empty item list, a call started at
    cursor [c] appends [min(items_wanted, available)] entries. Before it
    selects its [j]-th entry it advances the cursor by the 1-based counter
    [j], and sets it to 0 when the advance reaches or passes the item count:
    the entries are the items at the cursors [cursor_at n c 1], ...,
    [cursor_at n c k], in this order, and the call leaves the cursor at
    [cursor_at n c k]. *)
Theorem News_content_cycle (w : Z) (ss : bool) (its : list news_item) (c : Z) :
  its <> [] -> 0 <= c ->
  let n := Z.of_nat (length its) in
  let k := Z.to_nat (Z.min w n) in
  (0 <= w -> Z.of_nat k = Z.min w n) /\
  (forall j : nat,
     cursor_at n c (S j) =
     if n <=? cursor_at n c j + Z.of_nat (S j) then 0
     else cursor_at n c j + Z.of_nat (S j)) /\
  exists st,
    News_content true w ss its c = Some st /\
    length (picked its c 0 k) = k /\
    content st = flat_map (entry ss) (picked its c 0 k) /\
    current_index st = cursor_at n c k.
Proof.
  intros Hne Hc n k.
  split; [subst k; lia |].
  split; [intros j; reflexivity |].
  destruct (News_content_run true w ss its c (nonempty_length its Hne) Hc)
    as (st & Hrun & Hcur & Hlen & Hct & _).
  exists st. repeat split; assumption.
Qed.

Lemma News_content_cycle_witness :
  exists st,
    News_content true 3 false sample_items 0 = Some st /\
    content st = [""; "Headline B"; ""; "Headline D"; ""; "Headline A"] /\
    current_index st = 0.
Proof.
  destruct (News_content_cycle 3 false sample_items 0) as (_ & _ & st & Hrun & _ & Hct & Hcur);
    [discriminate | lia |].
  exists st. split; [exact Hrun |]. split; [exact Hct | exact Hcur].
Defined.

(** The accelerating skip on five items: a first call reads the items at
    1 and 3, the next call goes on from 3 and reads those at 4 and 0. *)
Example News_content_two_calls :
  News_calls 2 true 2 false sample_items 0 =
  Some [ [""; "Headline B"; ""; "Headline D"];
         [""; "Headline E"; ""; "Headline A"] ].
Proof. reflexivity. Qed.

Lemma News_content_no_cycle_any (w : Z) (ss : bool) (its : list news_item) (c : Z) :
  News_content false w ss its c = News_content true w ss its 0.
Proof. reflexivity. Qed.

Lemma News_content_no_cycle_some (w : Z) (ss : bool) (its : list news_item) (c : Z) :
  is_Some (News_content false w ss its c).
Proof.
  destruct its as [| it its].
  - unfold News_content, Py.range1. simpl length.
    replace (Z.to_nat (Z.min w (Z.of_nat 0))) with 0%nat by lia.
    simpl. eauto.
  - destruct (News_content_run false w ss (it :: its) 0) as (st & Hrun & _);
      [simpl; lia | lia |].
    rewrite News_content_no_cycle_any, <- (News_content_no_cycle_any w ss _ 0).
    eauto.
Qed.

(** C8. With cycle disabled a call resets the cursor to 0 before it reads:
    it does what a call started at cursor 0 does, whatever cursor the
    previous call left, so any number of calls in a row on one snapshot
    build the same content every time. *)
Theorem News_content_no_cycle (w : Z) (ss : bool) (its : list news_item) (c : Z) :
  exists st,
    News_content false w ss its c = Some st /\
    News_content true w ss its 0 = Some st /\
    (forall c', News_content false w ss its c' = Some st) /\
    (forall m, News_calls m false w ss its c = Some (replicate m (content st))).
Proof.
  destruct (News_content_no_cycle_some w ss its c) as [st Hst].
  assert (Hany : forall c', News_content false w ss its c' = Some st).
  { intros c'. now rewrite News_content_no_cycle_any, <- (News_content_no_cycle_any w ss its c). }
  exists st. split; [exact Hst |].
  split; [now rewrite <- (News_content_no_cycle_any w ss its c) |].
  split; [exact Hany |].
  intros m. revert c Hst. induction m as [| m IH]; intros c Hst; simpl.
  - reflexivity.
  - rewrite Hst. simpl. rewrite (IH (current_index st) (Hany _)). reflexivity.
Qed.

Lemma length_entry_subscripts (ss : bool) (f : nat -> Z) (l : list nat) :
  length (flat_map (fun q => entry_subscripts ss (f q)) l) =
  (length l * (if ss then 2 else 1))%nat.
Proof.
  induction l as [| q l IH]; simpl; [reflexivity |].
  rewrite length_app, IH. destruct ss; simpl; lia.
Qed.

Lemma News_content_nil (cycle : bool) (w : Z) (ss : bool) (c : Z) :
  News_content cycle w ss [] c =
  Some {| current_index := if cycle then c else 0;
          content := []; subscripts := [] |}.
Proof.
  unfold News_content, Py.range1. simpl length.
  replace (Z.to_nat (Z.min w (Z.of_nat 0))) with 0%nat by lia.
  destruct cycle; reflexivity.
Qed.

(** The cursor a news feed can hold is never negative, and it stays at 0
    when no item is wanted. *)
Lemma reachable_cursor (cycle : bool) (w : Z) (ss : bool) (c : Z) :
  reachable cycle w ss c -> 0 <= c /\ (1 <= w \/ c = 0).
Proof.
  induction 1 as [| c its st _ [Hc Hw] Hrun].
  - split; [lia | now right].
  - destruct its as [| it its'].
    + rewrite News_content_nil in Hrun. injection Hrun as <-. simpl.
      destruct cycle; [auto |]. split; [lia | now right].
    + assert (Hn : 0 < Z.of_nat (length (it :: its'))) by (simpl; lia).
      destruct (News_content_run cycle w ss (it :: its') c Hn Hc)
        as (st' & Hrun' & Hcur & _).
      rewrite Hrun in Hrun'. injection Hrun' as <-. rewrite Hcur.
      set (c0 := if cycle then c else 0).
      assert (Hc0 : 0 <= c0) by (subst c0; destruct cycle; lia).
      split; [now apply cursor_at_nonneg |].
      destruct Hw as [Hw | ->]; [now left |].
      destruct (Z_le_gt_dec 1 w) as [Hw | Hw]; [now left | right].
      replace (Z.to_nat (Z.min w (Z.of_nat (length (it :: its'))))) with 0%nat by lia.
      simpl. subst c0. now destruct cycle.
Qed.

(** C10. On a non-empty item list and from a cursor that is not negative,
    a call raises no [IndexError]: every index at which the item list is
    subscripted lies in [0, n). After the call the cursor lies in [0, n),
    from every cursor the feed can hold ([reachable]: 0 at construction,
    then what a call of [_set_content] left); and also from any other
    cursor when at least one item is wanted, when cycle is disabled, or
    when the starting cursor was below [n]. *)
Theorem News_content_in_bounds (cycle : bool) (w : Z) (ss : bool)
    (its : list news_item) (c : Z) :
  its <> [] -> 0 <= c ->
  let n := Z.of_nat (length its) in
  exists st,
    News_content cycle w ss its c = Some st /\
    Forall (fun i => 0 <= i < n) (subscripts st) /\
    length (subscripts st) =
      (Z.to_nat (Z.min w n) * (if ss then 2 else 1))%nat /\
    (reachable cycle w ss c \/ 1 <= w \/ cycle = false \/ c < n ->
     0 <= current_index st < n).
Proof.
  intros Hne Hc n.
  pose proof (nonempty_length its Hne) as Hn. fold n in Hn.
  destruct (News_content_run cycle w ss its c Hn Hc)
    as (st & Hrun & Hcur & _ & _ & Hsub).
  fold n in Hcur, Hsub.
  set (c0 := if cycle then c else 0) in *.
  assert (Hc0 : 0 <= c0) by (subst c0; destruct cycle; lia).
  exists st. split; [exact Hrun |]. split; [| split].
  - rewrite Hsub. apply List.Forall_forall. intros i Hi.
    apply in_flat_map in Hi as (q & Hq & Hi).
    apply in_seq in Hq.
    assert (Hr := cursor_at_range n c0 q Hn Hc0 ltac:(lia)).
    unfold entry_subscripts in Hi.
    destruct ss; simpl in Hi; intuition (subst; lia).
  - rewrite Hsub, length_entry_subscripts, length_seq. reflexivity.
  - intros Hcase. rewrite Hcur.
    assert (Hcase' : 1 <= w \/ c = 0 \/ cycle = false \/ c < n).
    { destruct Hcase as [Hreach | [Hw | [Hcy | Hlt]]]; auto.
      destruct (reachable_cursor cycle w ss c Hreach) as [_ [Hw | Hz]]; auto. }
    destruct (Z.to_nat (Z.min w n)) as [| k'] eqn:Hk.
    + simpl. destruct Hcase' as [Hw | [Hz | [-> | Hlt]]].
      * lia.
      * subst c0. destruct cycle; lia.
      * subst c0. lia.
      * subst c0. destruct cycle; lia.
    + apply cursor_at_range; [exact Hn | exact Hc0 | lia].
Qed.

Lemma News_content_in_bounds_witness :
  exists st,
    News_content true 2 true sample_items 3 = Some st /\
    Forall (fun i => 0 <= i < 5) (subscripts st) /\
    0 <= current_index st < 5.
Proof.
  destruct (News_content_in_bounds true 2 true sample_items 3)
    as (st & Hrun & Hsub & _ & Hcur); [discriminate | lia |].
  exists st. split; [exact Hrun |]. split; [exact Hsub |].
  apply Hcur. left.
  exact (reach_call true 2 true 0 sample_items _ (reach_init true 2 true) eq_refl).
Defined.

(** A feed that wants no item keeps its cursor at 0, in range of every
    non-empty snapshot. *)
Example News_content_no_item_wanted :
  exists st,
    News_content true 0 false sample_items 0 = Some st /\ current_index st = 0.
Proof. eexists. split; reflexivity. Qed.

(** ** The sequencer *)

Lemma builder_inv_init :
  builder_inv [] {| sequence := []; instances := ∅; heap := [] |}.
Proof.
  repeat split; simpl; intros *.
  - intros Hi. destruct i; discriminate.
  - rewrite lookup_empty. discriminate.
  - rewrite lookup_empty. discriminate.
Qed.

Lemma construct_step_inv (cfg : yaml_cfg) (done : list string) (b : builder)
    (name : string) :
  builder_inv done b -> configured cfg name ->
  exists b', construct_step cfg b name = Some b' /\ builder_inv (done ++ [name]) b'.
Proof.
  intros (Hlen & Hseq & Hbound & Hinj) [cls Hcls].
  unfold construct_step.
  destruct (instances b !! name) as [a |] eqn:Hinst.
  - eexists. split; [reflexivity |].
    repeat split; simpl.
    + rewrite !length_app, Hlen. reflexivity.
    + intros i name' Hi.
      destruct (decide (i < length done)%nat) as [Hlt | Hge].
      * rewrite lookup_app_l in Hi by exact Hlt.
        destruct (Hseq i name' Hi) as (a' & Ha' & Hn').
        exists a'. split; [| exact Hn'].
        rewrite lookup_app_l by (rewrite Hlen; exact Hlt). exact Ha'.
      * rewrite lookup_app_r in Hi by lia.
        destruct (i - length done)%nat as [| d] eqn:Hd; [| destruct d; discriminate].
        injection Hi as <-.
        exists a. split; [| exact Hinst].
        rewrite lookup_app_r by lia.
        replace (i - length (sequence b))%nat with 0%nat by lia. reflexivity.
    + exact Hbound.
    + exact Hinj.
  - unfold feed_class_of in Hcls.
    destruct (cfg_feeds cfg !! name) as [fc |]; [| discriminate].
    simpl in Hcls |- *.
    destruct (attr_str fc "feed_class") as [cn |]; [| discriminate].
    simpl in Hcls |- *. rewrite Hcls. simpl.
    eexists. split; [reflexivity |].
    repeat split; simpl.
    + rewrite !length_app, Hlen. reflexivity.
    + intros i name' Hi.
      destruct (decide (i < length done)%nat) as [Hlt | Hge].
      * rewrite lookup_app_l in Hi by exact Hlt.
        destruct (Hseq i name' Hi) as (a' & Ha' & Hn').
        exists a'. split.
        -- rewrite lookup_app_l by (rewrite Hlen; exact Hlt). exact Ha'.
        -- rewrite lookup_insert_ne; [exact Hn' |]. intros <-. congruence.
      * rewrite lookup_app_r in Hi by lia.
        destruct (i - length done)%nat as [| d] eqn:Hd; [| destruct d; discriminate].
        injection Hi as <-.
        exists (length (heap b)). split; [| apply lookup_insert_eq].
        rewrite lookup_app_r by lia.
        replace (i - length (sequence b))%nat with 0%nat by lia. reflexivity.
    + intros name' a'. rewrite length_app. simpl.
      destruct (decide (name = name')) as [<- | Hne].
      * rewrite lookup_insert_eq. intros [= <-]. lia.
      * rewrite lookup_insert_ne by exact Hne. intros Hn'.
        specialize (Hbound _ _ Hn'). lia.
    + intros n1 n2 a'.
      destruct (decide (name = n1)) as [<- | Hne1];
        destruct (decide (name = n2)) as [<- | Hne2];
        rewrite ?lookup_insert_eq, ?lookup_insert_ne by assumption.
      * reflexivity.
      * intros [= <-] Hn2. specialize (Hbound _ _ Hn2). lia.
      * intros Hn1 [= <-]. specialize (Hbound _ _ Hn1). lia.
      * apply Hinj.
Qed.

Lemma construct_loop_inv (cfg : yaml_cfg) (names done : list string) (b : builder) :
  builder_inv done b -> Forall (configured cfg) names ->
  exists b', construct_loop cfg names b = Some b' /\
             builder_inv (done ++ names) b' /\
             (forall a o, heap b !! a = Some o -> heap b' !! a = Some o).
Proof.
  revert done b. induction names as [| name names IH]; intros done b Hinv Hall.
  - exists b. rewrite app_nil_r. simpl. auto.
  - apply Forall_cons in Hall as [Hname Hall].
    destruct (construct_step_inv cfg done b name Hinv Hname) as (b1 & Hstep & Hinv1).
    destruct (IH (done ++ [name]) b1 Hinv1 Hall) as (b' & Hloop & Hinv' & Hkeep).
    exists b'. simpl. rewrite Hstep. simpl. split; [exact Hloop |].
    rewrite <- app_assoc in Hinv'. split; [exact Hinv' |].
    intros a o Ha. apply Hkeep.
    unfold construct_step in Hstep.
    destruct (instances b !! name).
    + injection Hstep as <-. exact Ha.
    + destruct (cfg_feeds cfg !! name) as [fc |]; [| discriminate]. simpl in Hstep.
      destruct (attr_str fc "feed_class") as [cn |]; [| discriminate]. simpl in Hstep.
      destruct (class_of_name cn) as [cls |]; [| discriminate]. simpl in Hstep.
      injection Hstep as <-. simpl. apply lookup_app_l_Some. exact Ha.
Qed.

Lemma result_bind {A B} (m : M A) (f : A -> M B) :
  result (bind m f) =
  match result m with Some a => result (f a) | None => None end.
Proof.
  destruct m as [l [a |]]; simpl; [| reflexivity].
  destruct (f a) as [l' r]. reflexivity.
Qed.

Section Pass.
Context `{Collaborators}.
Variable clock : nat -> Z.

Lemma result_show_at (k : nat) (a : addr) (h h' : list feed) :
  result (show_at clock k a h) = Some h' ->
  exists pre post,
    h !! a = Some pre /\
    result (show (clock (2 * k)) (clock (2 * k + 1)) pre) = Some post /\
    h' = <[a := post]> h.
Proof.
  unfold show_at. rewrite result_bind.
  change (result (lift (h !! a))) with (h !! a).
  destruct (h !! a) as [pre |]; [| discriminate].
  rewrite result_bind.
  destruct (result (show _ _ pre)) as [post |] eqn:Hshow; [| discriminate].
  intros [= <-]. exists pre, post. auto.
Qed.

(** A pass leaves alone the objects it does not show. *)
Lemma run_pass_frame (seq : list addr) (a : addr) :
  a ∉ seq ->
  forall (k : nat) (h h' : list feed),
    result (run_pass clock k seq h) = Some h' -> h' !! a = h !! a.
Proof.
  intros Hnotin. induction seq as [| a0 seq IH]; intros k h h' Hrun.
  - injection Hrun as <-. reflexivity.
  - apply not_elem_of_cons in Hnotin as [Hne Hnotin].
    simpl in Hrun. rewrite result_bind in Hrun.
    destruct (result (show_at clock k a0 h)) as [h1 |] eqn:Hshow; [| discriminate].
    apply result_show_at in Hshow as (pre & post & _ & _ & ->).
    rewrite (IH Hnotin _ _ _ Hrun).
    apply list_lookup_insert_ne. congruence.
Qed.

Lemma run_pass_app (s1 s2 : list addr) :
  forall (k : nat) (h : list feed),
    result (run_pass clock k (s1 ++ s2) h) =
    match result (run_pass clock k s1 h) with
    | Some h1 => result (run_pass clock (k + length s1) s2 h1)
    | None => None
    end.
Proof.
  induction s1 as [| a s1 IH]; intros k h; simpl.
  - now rewrite Nat.add_0_r.
  - rewrite !result_bind.
    destruct (result (show_at clock k a h)) as [h1 |]; [| reflexivity].
    rewrite IH. now replace (S k + length s1)%nat with (k + S (length s1))%nat by lia.
Qed.

(** The object a later occurrence of an address is shown from is the
    object its previous occurrence left. *)
Lemma run_pass_visible (seq : list addr) (i j : nat) (a : addr)
    (k0 : nat) (h0 hi hj : list feed) (pre post : feed) :
  (i < j)%nat ->
  seq !! i = Some a ->
  (forall q, (i < q < j)%nat -> seq !! q <> Some a) ->
  result (run_pass clock k0 (take i seq) h0) = Some hi ->
  hi !! a = Some pre ->
  result (show (clock (2 * (k0 + i))) (clock (2 * (k0 + i) + 1)) pre) = Some post ->
  result (run_pass clock k0 (take j seq) h0) = Some hj ->
  hj !! a = Some post.
Proof.
  intros Hij Hi Hbetween Hrun_i Hpre Hshow Hrun_j.
  assert (Hlen : (i < length seq)%nat) by (eapply lookup_lt_Some; exact Hi).
  assert (Hsplit : take j seq = take i seq ++ a :: drop (S i) (take j seq)).
  { rewrite <- (take_drop i (take j seq)) at 1.
    rewrite take_take, Nat.min_l by lia. f_equal.
    apply drop_S. rewrite lookup_take_lt by lia. exact Hi. }
  rewrite Hsplit, run_pass_app, Hrun_i in Hrun_j.
  rewrite length_take, Nat.min_l in Hrun_j by lia.
  simpl in Hrun_j. rewrite result_bind in Hrun_j.
  destruct (result (show_at clock (k0 + i) a hi)) as [h1 |] eqn:Hat; [| discriminate].
  apply result_show_at in Hat as (pre' & post' & Hpre' & Hshow' & ->).
  rewrite Hpre in Hpre'. injection Hpre' as <-.
  rewrite Hshow in Hshow'. injection Hshow' as <-.
  assert (Hnotin : a ∉ drop (S i) (take j seq)).
  { intros Hin. apply list_elem_of_lookup in Hin as [q Hq].
    rewrite lookup_drop in Hq.
    destruct (decide (S i + q < j)%nat) as [Hlt | Hge].
    - rewrite lookup_take_lt in Hq by exact Hlt.
      apply (Hbetween (S i + q)%nat); [lia | exact Hq].
    - rewrite lookup_take_ge in Hq by lia. discriminate. }
  rewrite (run_pass_frame _ a Hnotin _ _ _ Hrun_j).
  apply list_lookup_insert_eq. eapply lookup_lt_Some. exact Hpre.
Qed.

End Pass.

(** C9. When every name of the sequence is configured, [construct_sequence]
    returns one reference per name of the sequence, and two occurrences of
    one name hold the same reference to one object of the heap. In a pass
    of the main loop, whatever the heap [h] the pass starts from, the object
    a later occurrence of the name is shown from is therefore the object the
    render of its previous occurrence left, cursor included. *)
Theorem construct_sequence_shared `{Collaborators} (clock : nat -> Z) (cfg : yaml_cfg) :
  Forall (configured cfg) (cfg_sequence cfg) ->
  exists seq h0,
    construct_sequence cfg = Some (seq, h0) /\
    length seq = length (cfg_sequence cfg) /\
    (forall (i j : nat) name,
       cfg_sequence cfg !! i = Some name ->
       cfg_sequence cfg !! j = Some name ->
       exists a o, seq !! i = Some a /\ seq !! j = Some a /\ h0 !! a = Some o) /\
    (forall (i j : nat) name a (k0 : nat) (h hi hj : list feed) (pre post : feed),
       (i < j)%nat ->
       cfg_sequence cfg !! i = Some name ->
       cfg_sequence cfg !! j = Some name ->
       (forall q, (i < q < j)%nat -> cfg_sequence cfg !! q <> Some name) ->
       seq !! i = Some a ->
       result (run_pass clock k0 (take i seq) h) = Some hi ->
       hi !! a = Some pre ->
       result (show (clock (2 * (k0 + i))%nat) (clock (2 * (k0 + i) + 1)%nat) pre)
         = Some post ->
       result (run_pass clock k0 (take j seq) h) = Some hj ->
       seq !! j = Some a /\ hj !! a = Some post).
Proof.
  intros Hall.
  destruct (construct_loop_inv cfg (cfg_sequence cfg) [] _ builder_inv_init Hall)
    as (b & Hloop & (Hlen & Hseq & Hbound & Hinj) & _).
  simpl in Hlen, Hseq.
  exists (sequence b), (heap b).
  split; [unfold construct_sequence; rewrite Hloop; reflexivity |].
  split; [exact Hlen |].
  assert (Hsame : forall (i j : nat) name,
            cfg_sequence cfg !! i = Some name ->
            cfg_sequence cfg !! j = Some name ->
            exists a, sequence b !! i = Some a /\ sequence b !! j = Some a /\
                      instances b !! name = Some a).
  { intros i j name Hi Hj.
    destruct (Hseq i name Hi) as (a & Ha & Hn).
    destruct (Hseq j name Hj) as (a' & Ha' & Hn').
    rewrite Hn in Hn'. injection Hn' as <-. eauto. }
  split.
  - intros i j name Hi Hj.
    destruct (Hsame i j name Hi Hj) as (a & Ha & Ha' & Hn).
    destruct (lookup_lt_is_Some_2 (heap b) a (Hbound _ _ Hn)) as [o Ho].
    exists a, o. auto.
  - intros i j name a k0 h hi hj pre post Hij Hi Hj Hbetween Ha Hrun_i Hpre Hshow Hrun_j.
    destruct (Hsame i j name Hi Hj) as (a' & Ha1 & Ha2 & Hn).
    rewrite Ha in Ha1. injection Ha1 as <-.
    split; [exact Ha2 |].
    apply (run_pass_visible clock (sequence b) i j a k0 h hi hj pre post);
      try assumption.
    intros q Hq Hqa.
    destruct (lookup_lt_is_Some_2 (cfg_sequence cfg) q) as [name' Hname'].
    { rewrite <- Hlen. eapply lookup_lt_Some. exact Hqa. }
    destruct (Hseq q name' Hname') as (a' & Ha' & Hn').
    rewrite Hqa in Ha'. injection Ha' as <-.
    apply (Hbetween q Hq). rewrite Hname'. f_equal.
    exact (Hinj _ _ _ Hn' Hn).
Qed.

Lemma construct_sequence_shared_witness :
  exists seq h0 a o,
    construct_sequence (sample_cfg ["news"; "clock"; "news"]) = Some (seq, h0) /\
    seq !! 0%nat = Some a /\ seq !! 2%nat = Some a /\ h0 !! a = Some o.
Proof.
  destruct (construct_sequence_shared (H := sample_collaborators)
              sample_clock_readings (sample_cfg ["news"; "clock"; "news"]))
    as (seq & h0 & Hcs & _ & Hsame & _).
  { repeat constructor; vm_compute; eauto. }
  destruct (Hsame 0%nat 2%nat "news" eq_refl eq_refl) as (a & o & H0 & H2 & Ho).
  exists seq, h0, a, o. auto.
Defined.

(** One pass over the sequence news, clock, news: the second render of the
    news feed goes on from the cursor the first one left. *)
Example shared_news_cursor :
  construct_sequence (sample_cfg ["news"; "clock"; "news"]) =
    Some ([0; 1; 0]%nat,
          [ new_feed (sample_base 30) NewsFeed sample_news;
            new_feed (sample_base 30) DatetimeFeed sample_clock ]) /\
  printed (run_pass (H := sample_collaborators) sample_clock_readings 0
             [0; 1; 0]%nat
             [ new_feed (sample_base 30) NewsFeed sample_news;
               new_feed (sample_base 30) DatetimeFeed sample_clock ]) =
    [ "Headline B"; "Headline D";
      "12:00 PM Wednesday, November 4th";
      "Headline E"; "Headline A" ].
Proof. split; vm_compute; reflexivity. Qed.

(* ===================================================================== *)
(** * Further properties *)
(* ===================================================================== *)

(** ** The configuration of a feed *)

(** X1. Whatever the base layer and the overrides hold, a constructed feed
    has the attributes [header] and [update_message] (reading them never
    raises), and its attributes are those of the base layer, those of the
    overrides and these two. *)
Theorem new_feed_attributes (base overrides : config) (cls : feed_class) :
  let cfg := f_config (new_feed base cls overrides) in
  is_Some (attr cfg "header") /\
  is_Some (attr cfg "update_message") /\
  dom cfg = dom overrides ∪ dom base ∪ {["header"; "update_message"]}.
Proof.
  simpl. unfold attr. rewrite !feed_config_lookup.
  split; [| split].
  - destruct (overrides !! "header"); [eauto |].
    destruct (decide _) as [_ | Hn]; [eauto | exfalso; apply Hn; auto].
  - destruct (overrides !! "update_message"); [eauto |].
    destruct (decide _) as [_ | Hn]; [eauto | exfalso; apply Hn; auto].
  - unfold feed_config, update_config, BaseFeed_init.
    rewrite dom_union_L, !dom_insert_L.
    apply set_eq. intros x. rewrite !elem_of_union, !elem_of_singleton. tauto.
Qed.

(** X2. Updating a configuration twice is updating it once with the two
    override dicts merged, the later one winning: a key is read from the
    later overrides, else from the earlier ones, else from the
    configuration. Updating with the same overrides again changes nothing. *)
Theorem update_config_twice (cfg a b : config) (k : string) :
  update_config (update_config cfg a) b = update_config cfg (update_config a b) /\
  update_config (update_config cfg a) b !! k =
    match b !! k with
    | Some v => Some v
    | None => match a !! k with Some v => Some v | None => cfg !! k end
    end /\
  update_config (update_config cfg a) a = update_config cfg a.
Proof.
  unfold update_config. split; [| split].
  - apply (assoc_L (∪)).
  - rewrite !lookup_union.
    destruct (b !! k), (a !! k), (cfg !! k); reflexivity.
  - rewrite (assoc_L (∪)). now rewrite (idemp_L (∪)).
Qed.

(** ** The segment header *)

(** X3. With one-character markers and a title that leaves room
    ([len + 4 < line_width]), the header fills the line up to two or three
    columns: its length is [line_width - 2] when the room left is even and
    [line_width - 3] when it is odd, with as many markers on the left as on
    the right. *)
Theorem get_header_fills (lw : Z) (l t r : string) :
  Py.len l = 1 -> Py.len r = 1 ->
  let T := Py.upper (Py.strip t) in
  Py.len T + 4 < lw ->
  Py.len (get_header lw (l, t, r)) = lw - 2 - (lw - Py.len T) mod 2 /\
  lw - 3 <= Py.len (get_header lw (l, t, r)) <= lw - 2 /\
  get_header lw (l, t, r) =
    Py.repeat l (num_markers lw T) +:+ " " +:+ T +:+ " "
    +:+ Py.repeat r (num_markers lw T).
Proof.
  intros Hl Hr T Hroom.
  assert (Hlen : Py.len (get_header lw (l, t, r)) = lw - 2 - (lw - Py.len T) mod 2).
  { rewrite len_get_header. fold T. rewrite Hl, Hr.
    unfold num_markers.
    destruct (Z.ltb_spec (Py.len T + 4) lw) as [_ | Hge]; [| lia].
    rewrite Z.quot_div_nonneg by lia.
    pose proof (Z.div_mod (lw - 4 - Py.len T) 2 ltac:(lia)) as Hdm.
    replace ((lw - Py.len T) mod 2) with ((lw - 4 - Py.len T) mod 2).
    - lia.
    - replace (lw - Py.len T) with (lw - 4 - Py.len T + 2 * 2) by lia.
      now rewrite Z.add_mod, Z.mod_mul, Z.add_0_r, Z.mod_mod by lia. }
  split; [exact Hlen |]. split.
  - pose proof (Z.mod_pos_bound (lw - Py.len T) 2 ltac:(lia)). lia.
  - reflexivity.
Qed.

Lemma get_header_fills_witness :
  Py.len (get_header 40 ("*", " news", "*")) = 40 - 2 /\
  Py.len (get_header 41 ("*", " news", "*")) = 41 - 3.
Proof.
  split.
  - apply (get_header_fills 40 "*" " news" "*"); vm_compute; reflexivity.
  - apply (get_header_fills 41 "*" " news" "*"); vm_compute; reflexivity.
Defined.

(** ** The finance feed *)

Lemma length_flat_map_const {A B} (f : A -> list B) (c : nat) (l : list A) :
  (forall x, length (f x) = c) -> length (flat_map f l) = (c * length l)%nat.
Proof.
  intros Hc. induction l as [| x l IH]; simpl; [lia |].
  rewrite length_app, Hc, IH. lia.
Qed.

(** X4. When the market message does not contain "CLOSED", the content is
    the line "As of <time>" (the time of the fetch, formatted by
    [sp.format_time]) followed by the three lines of every index. With or
    without "CLOSED" the content has one line plus three per index. *)
Theorem Finance_content_open (format_time : Z -> string) (d : finance_data) :
  (Py.contains "CLOSED" (Py.upper (fin_market_message d)) = false ->
   Finance_content format_time d =
     ("As of " +:+ format_time (fin_fetched_on d))
       :: flat_map index_block (fin_indexes d)) /\
  length (Finance_content format_time d) = S (3 * length (fin_indexes d)).
Proof.
  unfold Finance_content. split.
  - intros ->. now rewrite finance_loop_app.
  - rewrite finance_loop_app, length_app.
    rewrite (length_flat_map_const index_block 3) by reflexivity.
    destruct (Py.contains _ _); simpl; lia.
Qed.

Lemma length_ljust (w : nat) (s : string) :
  String.length (Py.ljust w s) = Nat.max w (String.length s).
Proof.
  unfold Py.ljust. rewrite length_append, length_repeat_nat. simpl. lia.
Qed.

Lemma length_rjust (w : nat) (s : string) :
  String.length (Py.rjust w s) = Nat.max w (String.length s).
Proof.
  unfold Py.rjust. rewrite length_append, length_repeat_nat. simpl. lia.
Qed.

(** X5. The two text lines of an index are aligned on fixed columns: when
    name, price and delta have at most 9 characters, the name starts at
    column 5, the price ends at column 24 and the delta, one line below,
    ends at column 24 too, followed by two spaces and the percentage.
    A longer field is written whole and pushes the line wider. *)
Theorem index_block_aligned (i : index_entry) :
  exists name_line delta_line pad1 pad2,
    index_block i = [""; name_line; delta_line] /\
    name_line = "    " +:+ ix_name i +:+ pad1 +:+ ix_price i /\
    delta_line = pad2 +:+ ix_delta i +:+ "  " +:+ ix_delta_pct i /\
    String.length name_line =
      (6 + Nat.max 9 (String.length (ix_name i))
         + Nat.max 9 (String.length (ix_price i)))%nat /\
    String.length (pad2 +:+ ix_delta i) =
      (15 + Nat.max 9 (String.length (ix_delta i)))%nat /\
    ((String.length (ix_name i) <= 9)%nat ->
     (String.length (ix_price i) <= 9)%nat ->
     (String.length (ix_delta i) <= 9)%nat ->
     String.length name_line = 24%nat /\
     String.length (pad2 +:+ ix_delta i) = 24%nat).
Proof.
  exists ("    " +:+ Py.ljust 9 (ix_name i) +:+ "  " +:+ Py.rjust 9 (ix_price i)),
    ("               " +:+ Py.rjust 9 (ix_delta i) +:+ "  " +:+ ix_delta_pct i),
    (Py.repeat_nat " " (9 - String.length (ix_name i)) +:+ "  "
       +:+ Py.repeat_nat " " (9 - String.length (ix_price i))),
    ("               " +:+ Py.repeat_nat " " (9 - String.length (ix_delta i))).
  assert (Happ : forall a b c : string, (a +:+ b) +:+ c = a +:+ (b +:+ c)).
  { intros a b c. induction a as [| x a IH]; [reflexivity |].
    change (String x ((a +:+ b) +:+ c) = String x (a +:+ (b +:+ c))).
    now rewrite IH. }
  assert (H1 : String.length
                 ("    " +:+ Py.ljust 9 (ix_name i) +:+ "  " +:+ Py.rjust 9 (ix_price i)) =
               (6 + Nat.max 9 (String.length (ix_name i))
                  + Nat.max 9 (String.length (ix_price i)))%nat).
  { rewrite !length_append, length_ljust, length_rjust. simpl. lia. }
  assert (H2 : String.length
                 (("               "
                     +:+ Py.repeat_nat " " (9 - String.length (ix_delta i)))
                    +:+ ix_delta i) =
               (15 + Nat.max 9 (String.length (ix_delta i)))%nat).
  { rewrite !length_append, length_repeat_nat. simpl. lia. }
  split; [reflexivity |].
  split; [unfold Py.ljust, Py.rjust; now rewrite !Happ |].
  split; [unfold Py.rjust; now rewrite !Happ |].
  split; [exact H1 |]. split; [exact H2 |].
  intros Hn Hp Hd. rewrite H1, H2. lia.
Qed.

(** ** The satellite feed *)

Lemma iss_loop_take (cutoff max_sightings : Z) (ss : list sighting)
    (num_shown : Z) (content : list string) :
  0 <= num_shown ->
  iss_loop cutoff max_sightings ss num_shown content =
  content ++
  flat_map sighting_block
    (take (Z.to_nat (max_sightings - num_shown)) (List.filter (qualifies cutoff) ss)).
Proof.
  revert num_shown content.
  induction ss as [| s ss IH]; intros num_shown content Hns; simpl.
  - rewrite take_nil. simpl. now rewrite app_nil_r.
  - unfold qualifies at 1.
    destruct (cutoff <=? s_date_time s) eqn:Hq; simpl.
    + destruct (Z.ltb_spec num_shown max_sightings) as [Hlt | Hge].
      * rewrite IH by lia.
        replace (Z.to_nat (max_sightings - num_shown))
          with (S (Z.to_nat (max_sightings - (num_shown + 1)))) by lia.
        simpl. now rewrite <- app_assoc.
      * rewrite IH by lia.
        replace (Z.to_nat (max_sightings - num_shown)) with 0%nat by lia.
        reflexivity.
    + now apply IH.
Qed.

(** X6. When the snapshot lists sightings, the content is the location,
    the line "Upcoming ISS Sightings:" and the six-line blocks of the first
    [max_sightings] sightings that start at or after the present instant, in
    the order of the snapshot; none when [max_sightings <= 0]. *)
Theorem ISS_content_shown (max_sightings now : Z) (d : iss_data) :
  iss_sightings d <> [] ->
  let shown := take (Z.to_nat max_sightings)
                 (List.filter (qualifies now) (iss_sightings d)) in
  ISS_content max_sightings now d =
    [iss_location d; "Upcoming ISS Sightings:"] ++ flat_map sighting_block shown /\
  (length shown <= Z.to_nat max_sightings)%nat /\
  length (ISS_content max_sightings now d) = (2 + 6 * length shown)%nat.
Proof.
  intros Hne shown.
  assert (Heq : ISS_content max_sightings now d =
                [iss_location d; "Upcoming ISS Sightings:"] ++
                flat_map sighting_block shown).
  { unfold ISS_content. destruct (iss_sightings d) as [| s ss] eqn:Hss; [congruence |].
    simpl length. simpl Nat.eqb. cbv iota.
    rewrite iss_loop_take by lia. rewrite Z.sub_0_r. reflexivity. }
  split; [exact Heq |]. split.
  - subst shown. rewrite length_take. lia.
  - rewrite Heq, length_app.
    rewrite (length_flat_map_const sighting_block 6) by reflexivity. simpl. lia.
Qed.

Lemma ISS_content_shown_witness :
  let s t := {| s_date_time := t; s_date_text := "Mon"; s_time_text := "6 PM";
                s_visible := "4 min"; s_max_height := "61";
                s_appears := "WSW"; s_disappears := "NE" |} in
  let d := {| iss_fetched_on := 0; iss_location := "Duluth, MN";
              iss_sightings := [s 5; s 20; s 30; s 40] |} in
  length (ISS_content 2 10 d) = 14%nat.
Proof.
  intros s d.
  destruct (ISS_content_shown 2 10 d) as (_ & _ & Hlen); [discriminate |].
  exact Hlen.
Defined.

(** ** The weather feed *)

(** X7. The weather content has 8 lines plus 2 per hazard; when
    [n = min(periods, available)] forecast periods are shown ([n > 0]) it
    has 1 + 3n more lines, and one more again for the "Extended Forecast..."
    header when [n > 1]. With [periods <= 0] the content does not depend on
    the line width. *)
Theorem Weather_content_length (line_width periods : Z) (d : weather_data) :
  let n := Z.min periods (Z.of_nat (length (w_periods d))) in
  length (Weather_content line_width periods d) =
    (8 + 2 * length (w_hazards d) +
     (if (0 <? n)%Z then 1 + (if (1 <? n)%Z then 1 else 0) + 3 * Z.to_nat n else 0))%nat /\
  (periods <= 0 ->
   forall lw', Weather_content lw' periods d = Weather_content line_width periods d).
Proof.
  intros n. split.
  - unfold Weather_content. fold n.
    destruct (Z.ltb_spec 0 n) as [Hpos | Hle].
    + rewrite !length_app.
      rewrite (length_flat_map_const _ 3) by reflexivity.
      rewrite length_take, Nat.min_l by lia.
      destruct (1 <? n); rewrite ?length_app;
        rewrite (length_flat_map_const _ 2) by reflexivity; simpl; lia.
    + rewrite !length_app.
      rewrite (length_flat_map_const _ 2) by reflexivity. simpl. lia.
  - intros Hle lw'. unfold Weather_content. fold n.
    destruct (Z.ltb_spec 0 n) as [Hpos | _]; [lia | reflexivity].
Qed.

Lemma Finance_content_open_witness :
  Finance_content (fun _ => "9:30 AM")
    {| fin_market_message := "Market is open"; fin_fetched_on := 0;
       fin_indexes := [] |} = ["As of 9:30 AM"].
Proof.
  apply (Finance_content_open (fun _ => "9:30 AM")
           {| fin_market_message := "Market is open"; fin_fetched_on := 0;
              fin_indexes := [] |}).
  reflexivity.
Defined.

Lemma index_block_aligned_witness :
  exists name_line delta_line pad1 pad2,
    index_block {| ix_name := "DJIA"; ix_price := "39,000.00";
                   ix_delta := "+12.50"; ix_delta_pct := "(+0.03%)" |}
      = [""; name_line; delta_line] /\
    String.length name_line = 24%nat /\
    String.length (pad2 +:+ "+12.50") = 24%nat /\
    name_line = "    " +:+ "DJIA" +:+ pad1 +:+ "39,000.00".
Proof.
  destruct (index_block_aligned
              {| ix_name := "DJIA"; ix_price := "39,000.00";
                 ix_delta := "+12.50"; ix_delta_pct := "(+0.03%)" |})
    as (nl & dl & p1 & p2 & Hb & Hn & _ & _ & _ & Hfit).
  exists nl, dl, p1, p2.
  destruct Hfit as [H24 H24']; [simpl; lia | simpl; lia | simpl; lia |].
  split; [exact Hb |]. split; [exact H24 |]. split; [exact H24' | exact Hn].
Defined.

Lemma Weather_content_length_witness :
  let d := {| w_fetched_on := 0; w_location := "Duluth"; w_last_update := "9 AM";
              w_hazards := []; w_currently := "Fair"; w_temp_f := "50F";
              w_temp_c := "10C"; w_wind_speed := "5 mph"; w_visibility := "10 mi";
              w_dewpoint := "40F"; w_comfort := "dry";
              w_periods := [ {| p_timeframe := "Today"; p_forecast := "Sunny" |} ] |} in
  length (Weather_content 40 0 d) = 8%nat /\
  Weather_content 10 0 d = Weather_content 40 0 d.
Proof.
  intros d.
  destruct (Weather_content_length 40 0 d) as [Hlen Hlw].
  split; [exact Hlen | apply Hlw; lia].
Defined.

(** ** The news rotation, further *)

Lemma triangular_closed (j : nat) : 2 * triangular j = Z.of_nat j * (Z.of_nat j + 1).
Proof. induction j as [| j IH]; [reflexivity |]. simpl triangular. lia. Qed.

Lemma triangular_mono (i j : nat) : (i <= j)%nat -> triangular i <= triangular j.
Proof.
  induction 1 as [| j Hle IH]; [lia |]. simpl triangular. lia.
Qed.

Lemma cursor_at_triangular (n : Z) (j : nat) :
  triangular j < n -> cursor_at n 0 j = triangular j.
Proof.
  induction j as [| j IH]; intros Hlt; [reflexivity |].
  simpl cursor_at. simpl triangular in Hlt.
  rewrite IH by lia. unfold advance. simpl triangular.
  destruct (Z.leb_spec n (triangular j + Z.of_nat (S j))); [lia | reflexivity].
Qed.

(** X8. Headlines are not read one after the other. With cycle disabled
    (or on a call started at cursor 0), as long as the triangular number
    [1 + 2 + ... + j = j (j + 1) / 2] stays below the item count, the [j]-th
    entry of a call is the item at that index: the entries are the items
    1, 3, 6, 10, ..., and the items in between are never shown. *)
Theorem News_content_triangular (w : Z) (ss : bool) (its : list news_item) (c : Z) :
  let n := Z.of_nat (length its) in
  let k := Z.to_nat w in
  triangular k < n ->
  (forall j, 2 * triangular j = Z.of_nat j * (Z.of_nat j + 1)) /\
  exists st,
    News_content false w ss its c = Some st /\
    subscripts st =
      flat_map (fun j => entry_subscripts ss (triangular j)) (seq 1 k) /\
    content st =
      flat_map (entry ss)
        (omap (fun j => its !! Z.to_nat (triangular j)) (seq 1 k)) /\
    current_index st = triangular k.
Proof.
  intros n k Htri.
  split; [exact triangular_closed |].
  assert (Hn : 0 < n).
  { pose proof (triangular_mono 0 k ltac:(lia)) as H0. simpl in H0. lia. }
  assert (Hw : w <= n).
  { pose proof (triangular_closed k) as Hk. subst k. nia. }
  rewrite News_content_no_cycle_any, <- (News_content_no_cycle_any w ss its 0).
  destruct (News_content_run false w ss its 0 Hn ltac:(lia))
    as (st & Hrun & Hcur & _ & Hct & Hsub).
  unfold picked in Hct. fold n in Hcur, Hct, Hsub.
  replace (Z.to_nat (Z.min w n)) with k in * by (subst k; lia).
  assert (Htri_le : forall j, In j (seq 1 k) -> cursor_at n 0 j = triangular j).
  { intros j Hj. apply in_seq in Hj. apply cursor_at_triangular.
    pose proof (triangular_mono j k ltac:(lia)). lia. }
  exists st. split; [exact Hrun |]. split; [| split].
  - rewrite Hsub. clear -Htri_le.
    induction (seq 1 k) as [| j l IH]; [reflexivity |].
    simpl. rewrite Htri_le by (left; reflexivity).
    rewrite IH; [reflexivity |]. intros j' Hj'. apply Htri_le. now right.
  - rewrite Hct. f_equal. clear -Htri_le.
    induction (seq 1 k) as [| j l IH]; [reflexivity |].
    cbn [omap list_omap]. rewrite Htri_le by (left; reflexivity).
    rewrite IH; [reflexivity |]. intros j' Hj'. apply Htri_le. now right.
  - rewrite Hcur. apply cursor_at_triangular. exact Htri.
Qed.

Lemma News_content_triangular_witness :
  exists st,
    News_content false 2 false sample_items 4 = Some st /\
    subscripts st = [1; 3] /\
    content st = [""; "Headline B"; ""; "Headline D"].
Proof.
  destruct (News_content_triangular 2 false sample_items 4)
    as (_ & st & Hrun & Hsub & Hct & _); [simpl; lia |].
  exists st. split; [exact Hrun |]. split; [exact Hsub | exact Hct].
Defined.

(** X9. An empty item list is no error: whatever the options and the
    cursor, the call builds an empty content, reads nothing, and leaves the
    cursor where it was (cycle enabled) or at 0 (cycle disabled). *)
Theorem News_content_empty (cycle : bool) (w : Z) (ss : bool) (c : Z) :
  exists st,
    News_content cycle w ss [] c = Some st /\
    content st = [] /\ subscripts st = [] /\
    current_index st = if cycle then c else 0.
Proof. eexists. split; [apply News_content_nil |]. auto. Qed.



(** ** The feed lifecycle, further *)

Section ShowFacts.
Context `{Collaborators}.

(** The header stage of [show]. *)
Lemma header_stage (cfg : config) (lw : Z) (header : py_value) (l : list event) :
  attr_int cfg "line_width" = Some lw -> 0 < lw ->
  sleep_valid cfg "print_delay" ->
  attr cfg "header" = Some header ->
  match header with
  | VNone => ret tt
  | _ =>
      h <~ lift (as_header header) ;;
      line_width <~ lift (attr_int cfg "line_width") ;;
      slowp cfg (get_header line_width h)
  end = (l, Some tt) ->
  l = header_events cfg.
Proof.
  intros Hlw Hpos Hpd Hh. unfold header_events. rewrite Hh, Hlw.
  destruct header; [now intros [= <-] | ..].
  all: destruct (as_header _) as [h |]; [| discriminate];
    rewrite !bind_lift_Some, (slowp_ok cfg lw) by assumption;
    now intros [= <-].
Qed.

(** The content stage of [show]. *)
Lemma content_stage (cfg : config) (lw : Z) (c : list string) :
  rows_ok cfg -> attr_int cfg "line_width" = Some lw ->
  for_each c (fun line => if String.eqb line "" then slown cfg else slowp cfg line) =
  (content_events lw c, Some tt).
Proof.
  intros Hrows Hlw.
  pose proof Hrows as ((lw' & Hlw' & Hpos) & _ & _ & Hpd).
  rewrite Hlw in Hlw'. injection Hlw' as <-.
  apply for_each_events. intros line.
  destruct (String.eqb line ""); [now apply slown_ok | now apply slowp_ok].
Qed.

(** A [show] that returns had a configuration for its rows and its segment
    delay, and went through all its stages. *)
Lemma show_inv (nr nc : Z) (o o' : feed) (l : list event) :
  show nr nc o = (l, Some o') ->
  exists lw lr o1 c cursor,
    attr_int (f_config o) "line_width" = Some lw /\ 0 < lw /\
    rows_ok (f_config o) /\
    sleep_valid (f_config o) "segment_delay" /\
    refresh_data nr o = (lr, Some o1) /\
    result (set_content nc o1) = Some (with_content o1 c cursor) /\
    o' = with_content o1 c cursor /\
    (f_class o1 <> NewsFeed -> cursor = f_current_index o1) /\
    l = [PauseRow; PauseRow] ++ lr ++ header_events (f_config o) ++
        [PauseRow] ++ content_events lw c ++ [PauseRow; SegmentSleep].
Proof.
  intros Hshow. unfold show in Hshow.
  apply bind_Some_inv in Hshow as (l1 & [] & ? & Hs1 & Hshow & ->).
  apply slown_inv in Hs1 as [-> Hrows].
  pose proof Hrows as ((lw & Hlw & Hpos) & _ & _ & Hpd).
  rewrite (slown_ok _ Hrows) in Hshow.
  apply bind_Some_inv in Hshow as (l2 & [] & ? & He2 & Hshow & ->).
  apply emit_inv in He2 as ->.
  apply bind_Some_inv in Hshow as (lr & o1 & ? & Hrefresh & Hshow & ->).
  apply bind_Some_inv in Hshow as (lc & o2 & ? & Hcontent & Hshow & ->).
  destruct (set_content_spec nc o1) as [Hclog Hcres].
  rewrite Hcontent in Hclog, Hcres. simpl in Hclog, Hcres. subst lc.
  destruct (Hcres o2 eq_refl) as (c & cursor & -> & Hcursor).
  apply bind_Some_inv in Hshow as (lh & header & ? & Hheader & Hshow & ->).
  injection Hheader as <- Hheader.
  apply bind_Some_inv in Hshow as (l5 & [] & ? & Hstage & Hshow & ->).
  apply (header_stage _ lw) in Hstage as ->; [| assumption..].
  apply bind_Some_inv in Hshow as (l6 & [] & ? & He6 & Hshow & ->).
  apply emit_inv in He6 as ->.
  apply bind_Some_inv in Hshow as (l7 & [] & ? & He7 & Hshow & ->).
  change (default [] (f_content (with_content o1 c cursor))) with c in He7.
  pose proof (content_stage (f_config o) lw c Hrows Hlw) as Hcs.
  rewrite (slown_ok _ Hrows) in Hcs. rewrite Hcs in He7.
  injection He7 as <-.
  apply bind_Some_inv in Hshow as (l8 & [] & ? & He8 & Hshow & ->).
  apply emit_inv in He8 as ->.
  apply bind_Some_inv in Hshow as (l9 & [] & ? & Hsg & Hshow & ->).
  apply sleep_for_inv in Hsg as [-> Hsg].
  apply bind_Some_inv in Hshow as (l10 & [] & ? & He10 & Hshow & ->).
  apply emit_inv in He10 as ->.
  injection Hshow as <- <-.
  exists lw, lr, o1, c, cursor.
  split; [exact Hlw |]. split; [exact Hpos |]. split; [exact Hrows |].
  split; [exact Hsg |].
  split; [exact Hrefresh |]. split; [now rewrite Hcontent |].
  split; [reflexivity |]. split; [exact Hcursor |].
  reflexivity.
Qed.

(** The converse: [show] returns when its rows and its segment delay are
    configured, the refresh step and the content step return and the
    header, if any, is a triple. *)
Lemma show_intro (nr nc lw : Z) (o o1 o2 : feed) (lr : list event) (hv : py_value) :
  attr_int (f_config o) "line_width" = Some lw ->
  rows_ok (f_config o) ->
  sleep_valid (f_config o) "segment_delay" ->
  refresh_data nr o = (lr, Some o1) ->
  result (set_content nc o1) = Some o2 ->
  attr (f_config o) "header" = Some hv ->
  hv = VNone \/ is_Some (as_header hv) ->
  show nr nc o =
    ([PauseRow; PauseRow] ++ lr ++ header_events (f_config o) ++
     [PauseRow] ++ content_events lw (default [] (f_content o2)) ++
     [PauseRow; SegmentSleep], Some o2).
Proof.
  intros Hlw Hrows Hsg Hrefresh Hcontent Hh Hhv.
  pose proof Hrows as ((lw' & Hlw' & Hpos) & _ & _ & Hpd).
  rewrite Hlw in Hlw'. injection Hlw' as <-.
  assert (Hsc : set_content nc o1 = ([], Some o2)).
  { destruct (set_content_spec nc o1) as [Hlog _].
    destruct (set_content nc o1) as [lc rc]. simpl in *. congruence. }
  assert (Hstage :
    match hv with
    | VNone => ret tt
    | _ =>
        h <~ lift (as_header hv) ;;
        line_width <~ lift (attr_int (f_config o) "line_width") ;;
        slowp (f_config o) (get_header line_width h)
    end = (header_events (f_config o), Some tt)).
  { unfold header_events. rewrite Hh, Hlw.
    destruct Hhv as [-> | [h Hah]]; [reflexivity |].
    rewrite Hah.
    destruct hv; [discriminate Hah | ..];
      rewrite !bind_lift_Some; now rewrite (slowp_ok _ lw). }
  pose proof (content_stage (f_config o) lw (default [] (f_content o2)) Hrows Hlw)
    as Hcs.
  unfold show.
  rewrite (slown_ok _ Hrows) in Hcs |- *.
  rewrite !bind_emit. cbn [log result fst snd].
  rewrite (bind_Some _ _ _ _ Hrefresh). cbn [log result fst snd].
  rewrite (bind_Some _ _ _ _ Hsc). cbn [log result fst snd].
  rewrite Hh, bind_lift_Some.
  rewrite (bind_Some _ _ _ _ Hstage). cbn [log result fst snd].
  rewrite ?bind_emit. cbn [log result fst snd].
  rewrite (bind_Some _ _ _ _ Hcs). cbn [log result fst snd].
  rewrite (sleep_for_valid _ _ Hsg), bind_ret.
  cbn [log result fst snd ret].
  reflexivity.
Qed.

(** X11. What a [show] that returns has written, in order: two pause rows,
    what the refresh step wrote (nothing, the fetch, or the update banner
    with its pause row and then the fetch), the header through [_slowp] if
    a header is configured, a pause row, the content (a pause row for each
    empty line, the line through [_slowp] otherwise, wrapped when it is
    longer than the line width), a pause row and the segment delay. It
    returns only on a line of positive width and leaves the content set. *)
Theorem show_rendering (nr nc : Z) (o o' : feed) (l : list event) :
  show nr nc o = (l, Some o') ->
  exists lw c,
    attr_int (f_config o) "line_width" = Some lw /\ 0 < lw /\
    f_content o' = Some c /\
    l = [PauseRow; PauseRow] ++ log (refresh_data nr o) ++
        header_events (f_config o) ++
        [PauseRow] ++ content_events lw c ++ [PauseRow; SegmentSleep] /\
    (log (refresh_data nr o) = [] \/
     log (refresh_data nr o) = [Fetch (f_class o)] \/
     exists label,
       log (refresh_data nr o) = [UpdateMsg label; PauseRow; Fetch (f_class o)]).
Proof.
  intros Hshow.
  destruct (show_inv nr nc o o' l Hshow)
    as (lw & lr & o1 & c & cursor & Hlw & Hpos & _ & _ & Hrefresh & _ & -> & _ & ->).
  exists lw, c. split; [exact Hlw |]. split; [exact Hpos |].
  split; [reflexivity |]. rewrite Hrefresh. split; [reflexivity |].
  cbn [log fst].
  destruct (refresh_data_inv nr o o1 lr Hrefresh)
    as [[-> _] | (_ & [-> | [label ->]])]; eauto.
Qed.

Lemma show_keeps_inv (nr nc : Z) (o o' : feed) (l : list event) :
  (exists lw, attr_int (f_config o) "line_width" = Some lw /\ 0 < lw) ->
  show nr nc o = (l, Some o') ->
  f_class o' = f_class o /\
  f_config o' = f_config o /\
  is_Some (f_content o') /\
  (f_class o <> NewsFeed -> f_current_index o' = f_current_index o) /\
  (if has_fetch (show nr nc o) then is_Some (f_data o') else f_data o' = f_data o).
Proof.
  intros _ Hshow.
  destruct (show_inv nr nc o o' l Hshow)
    as (lw & lr & o1 & c & cursor & _ & _ & _ & _ & Hrefresh & _ & -> & Hcursor & ->).
  rewrite Hshow. unfold has_fetch, log. cbn [fst].
  rewrite !existsb_app.
  rewrite no_fetch_header_events, no_fetch_content_events.
  destruct (refresh_data_inv nr o o1 lr Hrefresh)
    as [[-> ->] | (Hsd & Hl)].
  - simpl. eauto 10.
  - destruct (proj2 (set_data_spec nr o) o1 Hsd) as [s ->].
    destruct Hl as [-> | [label ->]]; simpl; eauto 10.
Qed.

(** X12. A [show] that returns leaves the class and the configuration of
    the feed as they were and has set its content; the cursor moves only on
    a news feed; the data is replaced when the fetch step ran and is
    untouched otherwise. *)
Theorem show_keeps (nr nc : Z) (o o' : feed) (l : list event) :
  (exists lw, attr_int (f_config o) "line_width" = Some lw /\ 0 < lw) ->
  show nr nc o = (l, Some o') ->
  f_class o' = f_class o /\
  f_config o' = f_config o /\
  is_Some (f_content o') /\
  (f_class o <> NewsFeed -> f_current_index o' = f_current_index o) /\
  (if has_fetch (show nr nc o) then is_Some (f_data o') else f_data o' = f_data o).
Proof. apply show_keeps_inv. Qed.

(** X13. With a configuration on which the banner can be written (a
    positive line width, the delays of the rows and the subsegment delay)
    and a refresh interval [dt.timedelta] accepts, the update banner is
    written exactly when the data is stale, [verbose_updates] is true and
    [update_message] is not [None]; it is followed by its pause row and
    comes before the fetch; the refresh step writes nothing else, and on
    fresh data it does nothing at all. *)
Theorem refresh_data_banner (now R : Z) (o : feed) (v u : py_value) :
  f_class o <> DatetimeFeed ->
  rows_ok (f_config o) ->
  sleep_valid (f_config o) "subsegment_delay" ->
  attr_int (f_config o) "refresh" = Some R ->
  timedelta_ok R = true ->
  attr (f_config o) "verbose_updates" = Some v ->
  attr (f_config o) "update_message" = Some u ->
  (In (UpdateMsg u) (log (refresh_data now o)) <->
     stale R now (f_data o) = true /\ truthy v = true /\ u <> VNone) /\
  (stale R now (f_data o) = true ->
     log (refresh_data now o) = [Fetch (f_class o)] \/
     log (refresh_data now o) = [UpdateMsg u; PauseRow; Fetch (f_class o)]) /\
  (stale R now (f_data o) = false -> refresh_data now o = ([], Some o)).
Proof.
  intros Hcls Hrows Hsd HR Htd Hv Hu.
  rewrite (refresh_data_spec now R) by eauto.
  unfold banner, attr_truthy, attr in *. rewrite Hv, Hu.
  change (truthy <$> Some v) with (Some (truthy v)).
  destruct (stale R now (f_data o)); cbn [log fst].
  - split; [| split; [| discriminate]].
    + destruct (truthy v); [destruct u |]; simpl;
        (split; [intros Hin | intros (_ & Hx & Hy)]);
        first [ discriminate
              | congruence
              | destruct Hin as [Hin | []]; discriminate
              | repeat split; discriminate
              | left; reflexivity ].
    + intros _. destruct (truthy v); [destruct u |]; simpl; auto.
  - split; [| split; [discriminate | reflexivity]].
    split; [intros [] | intros (Hx & _); discriminate].
Qed.

(** X14. A fetch step that raises stops the [show] at once: with a
    configuration on which the rows and the banner can be written and a
    refresh interval [dt.timedelta] accepts, the call raises, and after the
    two pause rows, the banner if any and the call of the collaborator
    nothing is written, neither the header nor a line of the previous
    content. *)
Theorem show_fetch_fails (nr nc R : Z) (o : feed) :
  f_class o <> DatetimeFeed ->
  rows_ok (f_config o) ->
  sleep_valid (f_config o) "subsegment_delay" ->
  attr_int (f_config o) "refresh" = Some R ->
  timedelta_ok R = true ->
  is_Some (attr (f_config o) "verbose_updates") ->
  is_Some (attr (f_config o) "update_message") ->
  stale R nr (f_data o) = true ->
  result (set_data nr o) = None ->
  show nr nc o =
    ([PauseRow; PauseRow] ++ banner (f_config o) ++ [Fetch (f_class o)], None).
Proof.
  intros Hcls Hrows Hsd HR Htd Hv Hu Hstale Hfail.
  unfold show. rewrite (slown_ok _ Hrows).
  rewrite (refresh_data_spec nr R) by assumption.
  rewrite Hstale, Hfail. reflexivity.
Qed.

(** X15. The clock feed never calls a collaborator, whatever its
    configuration and its data, and its [show] does not depend on the
    instant read by the refresh step. *)
Theorem Datetime_show_no_fetch (nr nr' nc : Z) (o : feed) :
  f_class o = DatetimeFeed ->
  has_fetch (show nr nc o) = false /\
  show nr' nc o = show nr nc o.
Proof.
  intros Hcls.
  assert (Hr : forall t, refresh_data t o = ret o).
  { intros t. unfold refresh_data. now rewrite Hcls. }
  split.
  - destruct (has_fetch (show nr nc o)) eqn:Hf; [| reflexivity].
    apply has_fetch_show_refresh in Hf. rewrite Hr in Hf. discriminate.
  - unfold show. now rewrite !Hr.
Qed.

(** X16. With collaborators that stamp a snapshot with the instant of the
    fetch, a [show] that fetched is followed by no fetch for as long as the
    refresh interval has not elapsed since. *)
Theorem show_no_second_fetch (nr nc nr2 nc2 R lw : Z) (o o' : feed) (l : list event) :
  stamps H ->
  f_class o <> DatetimeFeed ->
  attr_int (f_config o) "line_width" = Some lw -> 0 < lw ->
  attr_int (f_config o) "refresh" = Some R ->
  is_Some (attr (f_config o) "verbose_updates") ->
  is_Some (attr (f_config o) "update_message") ->
  show nr nc o = (l, Some o') ->
  has_fetch (show nr nc o) = true ->
  nr2 - nr < minutes R ->
  has_fetch (show nr2 nc2 o') = false.
Proof.
  intros Hstamps _ _ _ HR _ _ Hshow Hfetch Hsoon.
  destruct (show_inv nr nc o o' l Hshow)
    as (lw' & lr & o1 & c & cursor & _ & _ & _ & _ & Hrefresh & _ & -> & _ & _).
  apply has_fetch_show_refresh in Hfetch.
  destruct (refresh_data_inv nr o o1 lr Hrefresh) as [[-> ->] | (Hsd & _)].
  - rewrite Hrefresh in Hfetch. discriminate.
  - pose proof (set_data_stamped nr o o1 Hstamps Hsd) as Hstamp.
    destruct (proj2 (set_data_spec nr o) o1 Hsd) as [s ->].
    destruct (has_fetch (show nr2 nc2 _)) eqn:Hf2; [| reflexivity].
    apply has_fetch_show_refresh in Hf2.
    apply (has_fetch_refresh_stale nr2 R) in Hf2; [| exact HR].
    unfold stale in Hf2. simpl in Hstamp, Hf2. rewrite Hstamp in Hf2.
    apply Z.leb_le in Hf2. lia.
Qed.

(** No line of the clock is empty: each goes through [_slowp]. *)
Lemma Datetime_content_events (lw : Z) (descriptive : bool)
    (formatted time_text : string) (day_num : Z) :
  content_events lw (Datetime_content descriptive formatted time_text day_num) =
  flat_map (slowp_events lw)
    (Datetime_content descriptive formatted time_text day_num).
Proof.
  unfold Datetime_content, content_events.
  destruct descriptive; [reflexivity |].
  destruct time_text; reflexivity.
Qed.

(** X17. A configured clock feed always shows: with a positive line width,
    the delays of the rows and the segment delay, a format string, the
    [descriptive] flag and a header that is [None] or a triple, [show]
    returns, whatever the data and the refresh options. It writes two pause
    rows, the header if any, a pause row, the one or two lines of the
    clock, each through [_slowp], a pause row and the segment delay, and
    keeps the cursor. *)
Theorem Datetime_show (nr nc lw : Z) (o : feed) (fmt : string) (v hv : py_value) :
  f_class o = DatetimeFeed ->
  attr_int (f_config o) "line_width" = Some lw ->
  rows_ok (f_config o) ->
  sleep_valid (f_config o) "segment_delay" ->
  attr_str (f_config o) "format" = Some fmt ->
  attr (f_config o) "descriptive" = Some v ->
  attr (f_config o) "header" = Some hv ->
  hv = VNone \/ is_Some (as_header hv) ->
  let c := Datetime_content (truthy v) (strftime fmt nc) (format_time nc) (day_of nc) in
  show nr nc o =
    ([PauseRow; PauseRow] ++ header_events (f_config o) ++
     [PauseRow] ++ flat_map (slowp_events lw) c ++ [PauseRow; SegmentSleep],
     Some (with_content o c (f_current_index o))).
Proof.
  intros Hcls Hlw Hrows Hsg Hfmt Hv Hh Hhv c.
  assert (Hr : refresh_data nr o = ([], Some o)).
  { unfold refresh_data. now rewrite Hcls. }
  assert (Hc : result (set_content nc o) = Some (with_content o c (f_current_index o))).
  { unfold set_content, attr_truthy. unfold attr in Hv. rewrite Hcls, Hfmt, Hv.
    reflexivity. }
  rewrite (show_intro nr nc lw o o _ [] hv Hlw Hrows Hsg Hr Hc Hh Hhv).
  change (default [] (f_content (with_content o c (f_current_index o)))) with c.
  subst c. now rewrite Datetime_content_events.
Qed.

End ShowFacts.

(** The sample clock feed is configured for its rows and its segment
    delay. *)
Lemma sample_clock_feed_ok :
  let cfg := f_config (new_feed (sample_base 30) DatetimeFeed sample_clock) in
  rows_ok cfg /\ sleep_valid cfg "segment_delay".
Proof.
  unfold rows_ok, sleep_valid.
  repeat split; try (eexists; split; [reflexivity | first [lia | reflexivity]]).
Qed.

Lemma refresh_data_banner_witness :
  log (refresh_data (H := sample_collaborators) sample_now (sample_news_feed 30 None)) =
  [UpdateMsg (VStr "Updating news"); PauseRow; Fetch NewsFeed].
Proof.
  destruct (sample_news_feed_ok 30 None) as (Hrows & Hsd & _).
  destruct (refresh_data_banner (H := sample_collaborators) sample_now 30
              (sample_news_feed 30 None) (VBool true) (VStr "Updating news")
              ltac:(discriminate) Hrows Hsd eq_refl eq_refl eq_refl eq_refl)
    as (Hin & Hstale & _).
  destruct (Hstale eq_refl) as [Hl | Hl]; [| exact Hl].
  exfalso. rewrite Hl in Hin.
  destruct (proj2 Hin) as [Hx | []]; [| discriminate].
  repeat split; discriminate.
Defined.

Lemma show_fetch_fails_witness :
  let o := {| f_class := FinanceFeed;
              f_config := feed_config (sample_base 30)
                            (<["symbols" := VList [VStr "DJIA"]]> sample_news);
              f_data := None; f_content := None; f_current_index := 0 |} in
  show (H := sample_collaborators) sample_now sample_now o =
    ([PauseRow; PauseRow; UpdateMsg (VStr "Updating news"); PauseRow;
      Fetch FinanceFeed], None).
Proof.
  intros o.
  apply (show_fetch_fails (H := sample_collaborators) sample_now sample_now 30 o);
    unfold rows_ok, sleep_valid;
    repeat split; try discriminate;
    try (eexists; split; [reflexivity | first [lia | reflexivity]]);
    vm_compute; eauto.
Defined.

Lemma Datetime_show_no_fetch_witness :
  has_fetch (show (H := sample_collaborators) 0 sample_now
               (new_feed (sample_base 30) DatetimeFeed sample_clock)) = false.
Proof.
  apply (Datetime_show_no_fetch (H := sample_collaborators) 0 0 sample_now
           (new_feed (sample_base 30) DatetimeFeed sample_clock)).
  reflexivity.
Defined.

Lemma Datetime_show_witness :
  show (H := sample_collaborators) 0 sample_now
    (new_feed (sample_base 30) DatetimeFeed sample_clock) =
  ([PauseRow; PauseRow; PauseRow; Print "12:00 PM Wednesday, November 4th";
    PauseRow; SegmentSleep],
   Some (with_content (new_feed (sample_base 30) DatetimeFeed sample_clock)
           ["12:00 PM Wednesday, November 4th"] 0)).
Proof.
  destruct sample_clock_feed_ok as [Hrows Hsg].
  apply (Datetime_show (H := sample_collaborators) 0 sample_now 40
           (new_feed (sample_base 30) DatetimeFeed sample_clock)
           "%A, %B " (VBool false) VNone eq_refl eq_refl Hrows Hsg
           eq_refl eq_refl eq_refl (or_introl eq_refl)).
Defined.

Lemma sample_stamps : stamps sample_collaborators.
Proof.
  repeat split; simpl; try discriminate.
  intros t d [= <-]. reflexivity.
Qed.

(** The first [show] of the sample news feed. *)
Lemma sample_news_show :
  show (H := sample_collaborators) sample_now sample_now (sample_news_feed 30 None) =
  ([PauseRow; PauseRow;
    UpdateMsg (VStr "Updating news"); PauseRow; Fetch NewsFeed;
    PauseRow;
    PauseRow; Print "Headline B"; PauseRow; Print "Headline D";
    PauseRow; SegmentSleep],
   Some (with_content
           (with_data (sample_news_feed 30 None)
              (NewsSnap {| news_fetched_on := sample_now;
                           news_items := sample_items |}))
           [""; "Headline B"; ""; "Headline D"] 3)).
Proof. vm_compute. reflexivity. Qed.

Lemma show_rendering_witness :
  exists lw c,
    attr_int (f_config (sample_news_feed 30 None)) "line_width" = Some lw /\
    0 < lw /\
    c = [""; "Headline B"; ""; "Headline D"] /\
    [PauseRow; PauseRow;
     UpdateMsg (VStr "Updating news"); PauseRow; Fetch NewsFeed;
     PauseRow;
     PauseRow; Print "Headline B"; PauseRow; Print "Headline D";
     PauseRow; SegmentSleep] =
    [PauseRow; PauseRow] ++
    log (refresh_data (H := sample_collaborators) sample_now
           (sample_news_feed 30 None)) ++
    header_events (H := sample_collaborators) (f_config (sample_news_feed 30 None)) ++
    [PauseRow] ++ content_events (H := sample_collaborators) lw c ++
    [PauseRow; SegmentSleep].
Proof.
  destruct (show_rendering (H := sample_collaborators) sample_now sample_now
              (sample_news_feed 30 None) _ _ sample_news_show)
    as (lw & c & Hlw & Hpos & Hc & Hl & _).
  exists lw, c. split; [exact Hlw |]. split; [exact Hpos |].
  split; [now injection Hc as <- | exact Hl].
Defined.

Lemma show_keeps_witness :
  exists l o',
    show (H := sample_collaborators) sample_now sample_now
      (sample_news_feed 30 None) = (l, Some o') /\
    f_config o' = f_config (sample_news_feed 30 None) /\
    f_current_index o' = 3.
Proof.
  eexists _, _. split; [exact sample_news_show |].
  split; [| reflexivity].
  eapply (show_keeps (H := sample_collaborators) sample_now sample_now).
  - exists 40. split; [reflexivity | lia].
  - exact sample_news_show.
Defined.

Lemma show_no_second_fetch_witness :
  exists l o',
    show (H := sample_collaborators) sample_now sample_now
      (sample_news_feed 30 None) = (l, Some o') /\
    has_fetch (show (H := sample_collaborators) (sample_now + minutes 29) sample_now o')
      = false.
Proof.
  eexists _, _. split; [exact sample_news_show |].
  eapply (show_no_second_fetch (H := sample_collaborators)
            sample_now sample_now (sample_now + minutes 29) sample_now 30 40
            (sample_news_feed 30 None));
    [ exact sample_stamps | discriminate | reflexivity | lia | reflexivity
    | vm_compute; eauto | vm_compute; eauto | exact sample_news_show
    | vm_compute; reflexivity
    | vm_compute; reflexivity ].
Defined.

(** ** The sequencer, further *)

Lemma construct_step_configured (cfg : yaml_cfg) (b b' : builder) (name : string) :
  (forall n a, instances b !! n = Some a -> configured cfg n) ->
  construct_step cfg b name = Some b' ->
  configured cfg name /\
  (forall n a, instances b' !! n = Some a -> configured cfg n).
Proof.
  intros Hinv. unfold construct_step.
  destruct (instances b !! name) as [a |] eqn:Hinst.
  - intros [= <-]. split; [eapply Hinv; exact Hinst | exact Hinv].
  - destruct (cfg_feeds cfg !! name) as [fc |] eqn:Hfc; [| discriminate]. simpl.
    destruct (attr_str fc "feed_class") as [cn |] eqn:Hcn; [| discriminate]. simpl.
    destruct (class_of_name cn) as [cls |] eqn:Hcls; [| discriminate]. simpl.
    intros [= <-].
    assert (Hname : configured cfg name).
    { exists cls. unfold feed_class_of. rewrite Hfc. simpl. rewrite Hcn. exact Hcls. }
    split; [exact Hname |]. simpl. intros n a.
    destruct (decide (name = n)) as [<- | Hne]; [intros _; exact Hname |].
    rewrite lookup_insert_ne by exact Hne. apply Hinv.
Qed.

Lemma construct_loop_configured (cfg : yaml_cfg) (names : list string) (b b' : builder) :
  (forall n a, instances b !! n = Some a -> configured cfg n) ->
  construct_loop cfg names b = Some b' ->
  Forall (configured cfg) names.
Proof.
  revert b. induction names as [| name names IH]; intros b Hinv Hloop.
  - constructor.
  - simpl in Hloop.
    destruct (construct_step cfg b name) as [b1 |] eqn:Hstep; [| discriminate].
    destruct (construct_step_configured cfg b b1 name Hinv Hstep) as [Hname Hinv1].
    constructor; [exact Hname | exact (IH b1 Hinv1 Hloop)].
Qed.

Lemma construct_sequence_inv (cfg : yaml_cfg) (seq : list addr) (h0 : list feed) :
  construct_sequence cfg = Some (seq, h0) ->
  exists b,
    construct_loop cfg (cfg_sequence cfg)
      {| sequence := []; instances := ∅; heap := [] |} = Some b /\
    seq = sequence b /\ h0 = heap b.
Proof.
  unfold construct_sequence.
  destruct (construct_loop _ _ _) as [b |]; [| discriminate].
  intros [= <- <-]. eauto.
Qed.

(** X18. [construct_sequence] returns if and only if every name of the
    sequence has a section whose [feed_class] names one of the five feed
    classes; a name without a section, a section without [feed_class] or an
    unknown class raises. *)
Theorem construct_sequence_returns (cfg : yaml_cfg) :
  is_Some (construct_sequence cfg) <-> Forall (configured cfg) (cfg_sequence cfg).
Proof.
  split.
  - intros [[seq h0] Hcs].
    apply construct_sequence_inv in Hcs as (b & Hloop & _).
    eapply construct_loop_configured; [| exact Hloop].
    simpl. intros n a. rewrite lookup_empty. discriminate.
  - intros Hall.
    destruct (construct_loop_inv cfg (cfg_sequence cfg) [] _ builder_inv_init Hall)
      as (b & Hloop & _).
    unfold construct_sequence. rewrite Hloop. simpl. eauto.
Qed.

(** A name without a section, and a class that takes no configuration. *)
Example construct_sequence_unknown_name :
  construct_sequence (sample_cfg ["news"; "weather"]) = None /\
  construct_sequence
    {| cfg_base := sample_base 30; cfg_sequence := ["title"];
       cfg_feeds := {[ "title" := {[ "feed_class" := VStr "Title" ]} ]} |} = None.
Proof. split; reflexivity. Qed.

Lemma construct_step_objects (cfg : yaml_cfg) (b b' : builder) (name : string) :
  objects_inv cfg b -> construct_step cfg b name = Some b' -> objects_inv cfg b'.
Proof.
  intros [Hobj Hused]. unfold construct_step.
  destruct (instances b !! name) as [a |] eqn:Hinst.
  - intros [= <-]. split; simpl; [exact Hobj |].
    intros a' Ha'. destruct (Hused a' Ha') as [i Hi].
    exists i. now apply lookup_app_l_Some.
  - destruct (cfg_feeds cfg !! name) as [fc |] eqn:Hfc; [| discriminate]. simpl.
    destruct (attr_str fc "feed_class") as [cn |] eqn:Hcn; [| discriminate]. simpl.
    destruct (class_of_name cn) as [cls |] eqn:Hcls; [| discriminate]. simpl.
    intros [= <-]. split; simpl.
    + intros n a.
      destruct (decide (name = n)) as [<- | Hne].
      * rewrite lookup_insert_eq. intros [= <-].
        exists fc, cls. split; [exact Hfc |]. split.
        -- unfold feed_class_of. rewrite Hfc. simpl. rewrite Hcn. exact Hcls.
        -- apply list_lookup_middle. reflexivity.
      * rewrite lookup_insert_ne by exact Hne. intros Hn.
        destruct (Hobj n a Hn) as (fc' & cls' & H1 & H2 & H3).
        exists fc', cls'. split; [exact H1 |]. split; [exact H2 |].
        now apply lookup_app_l_Some.
    + intros a'. rewrite length_app. simpl. intros Ha'.
      destruct (decide (a' < length (heap b))%nat) as [Hlt | Hge].
      * destruct (Hused a' Hlt) as [i Hi]. exists i. now apply lookup_app_l_Some.
      * exists (length (sequence b)).
        replace a' with (length (heap b)) by lia.
        apply list_lookup_middle. reflexivity.
Qed.

Lemma construct_loop_objects (cfg : yaml_cfg) (names : list string) (b b' : builder) :
  objects_inv cfg b -> construct_loop cfg names b = Some b' -> objects_inv cfg b'.
Proof.
  revert b. induction names as [| name names IH]; intros b Hinv Hloop.
  - injection Hloop as <-. exact Hinv.
  - simpl in Hloop.
    destruct (construct_step cfg b name) as [b1 |] eqn:Hstep; [| discriminate].
    exact (IH b1 (construct_step_objects cfg b b1 name Hinv Hstep) Hloop).
Qed.

(** X19. In the sequence [construct_sequence] returns, the reference at
    the place of a name leads to a fresh feed of the class its section
    names, configured with that section over the base layer; two different
    names never share an object; and the heap holds no object that the
    sequence does not refer to. *)
Theorem construct_sequence_objects (cfg : yaml_cfg) (seq : list addr) (h0 : list feed) :
  construct_sequence cfg = Some (seq, h0) ->
  (forall (i : nat) name, cfg_sequence cfg !! i = Some name ->
     exists a fc cls,
       seq !! i = Some a /\
       cfg_feeds cfg !! name = Some fc /\
       feed_class_of cfg name = Some cls /\
       h0 !! a = Some (new_feed (cfg_base cfg) cls fc)) /\
  (forall (i j : nat) n1 n2 a,
     cfg_sequence cfg !! i = Some n1 -> cfg_sequence cfg !! j = Some n2 ->
     seq !! i = Some a -> seq !! j = Some a -> n1 = n2) /\
  (forall a o, h0 !! a = Some o -> exists i, seq !! i = Some a).
Proof.
  intros Hcs.
  destruct (construct_sequence_inv cfg seq h0 Hcs) as (b & Hloop & -> & ->).
  assert (Hall : Forall (configured cfg) (cfg_sequence cfg)).
  { eapply construct_loop_configured; [| exact Hloop].
    simpl. intros n a. rewrite lookup_empty. discriminate. }
  destruct (construct_loop_inv cfg (cfg_sequence cfg) [] _ builder_inv_init Hall)
    as (b' & Hloop' & (Hlen & Hseq & Hbound & Hinj) & _).
  rewrite Hloop in Hloop'. injection Hloop' as <-. simpl in Hseq.
  assert (Hobjs : objects_inv cfg b).
  { eapply construct_loop_objects; [| exact Hloop].
    split; simpl.
    - intros name a. rewrite lookup_empty. discriminate.
    - intros a Ha. lia. }
  destruct Hobjs as [Hobj Hused].
  split; [| split].
  - intros i name Hi.
    destruct (Hseq i name Hi) as (a & Ha & Hn).
    destruct (Hobj name a Hn) as (fc & cls & H1 & H2 & H3).
    exists a, fc, cls. auto.
  - intros i j n1 n2 a Hi Hj Hai Haj.
    destruct (Hseq i n1 Hi) as (a1 & Ha1 & Hn1).
    destruct (Hseq j n2 Hj) as (a2 & Ha2 & Hn2).
    rewrite Hai in Ha1. injection Ha1 as <-.
    rewrite Haj in Ha2. injection Ha2 as <-.
    exact (Hinj _ _ _ Hn1 Hn2).
  - intros a o Ha. apply Hused. eapply lookup_lt_Some. exact Ha.
Qed.

Lemma construct_sequence_objects_witness :
  exists a fc,
    ([0; 1; 0]%nat : list addr) !! 1%nat = Some a /\
    cfg_feeds (sample_cfg ["news"; "clock"; "news"]) !! "clock" = Some fc /\
    [ new_feed (sample_base 30) NewsFeed sample_news;
      new_feed (sample_base 30) DatetimeFeed sample_clock ] !! a =
      Some (new_feed (sample_base 30) DatetimeFeed fc).
Proof.
  destruct (construct_sequence_objects (sample_cfg ["news"; "clock"; "news"])
              [0; 1; 0]%nat
              [ new_feed (sample_base 30) NewsFeed sample_news;
                new_feed (sample_base 30) DatetimeFeed sample_clock ] eq_refl)
    as (Hobj & _).
  destruct (Hobj 1%nat "clock" eq_refl) as (a & fc & cls & Ha & Hfc & Hcls & Ho).
  exists a, fc. split; [exact Ha |]. split; [exact Hfc |].
  injection Hcls as <-. exact Ho.
Defined.

Section PassFacts.
Context `{Collaborators}.
Variable clock : nat -> Z.

(** X20. A pass of the main loop that returns keeps the heap as long as it
    was and, for every object, the class and the configuration it had; an
    object the sequence does not refer to is not touched; and every
    reference of the sequence led to an object. *)
Theorem run_pass_keeps (seq : list addr) (k : nat) (h h' : list feed) :
  Forall (fun o => exists lw, attr_int (f_config o) "line_width" = Some lw /\ 0 < lw) h ->
  result (run_pass clock k seq h) = Some h' ->
  length h' = length h /\
  Forall (fun a => (a < length h)%nat) seq /\
  (forall a o, h !! a = Some o ->
     exists o', h' !! a = Some o' /\
                f_class o' = f_class o /\ f_config o' = f_config o /\
                (a ∉ seq -> o' = o)).
Proof.
  revert k h. induction seq as [| a0 seq IH]; intros k h Hlw Hrun.
  - injection Hrun as <-. split; [reflexivity |]. split; [constructor |].
    intros a o Ha. exists o. auto.
  - simpl in Hrun. rewrite result_bind in Hrun.
    destruct (result (show_at clock k a0 h)) as [h1 |] eqn:Hat; [| discriminate].
    apply result_show_at in Hat as (pre & post & Hpre & Hshow & ->).
    destruct (show _ _ pre) as [l r] eqn:Hs. simpl in Hshow. subst r.
    assert (Hpre_lw : exists lw, attr_int (f_config pre) "line_width" = Some lw /\ 0 < lw).
    { rewrite List.Forall_forall in Hlw. apply Hlw.
      apply list_elem_of_In. eapply list_elem_of_lookup_2. exact Hpre. }
    destruct (show_keeps_inv _ _ pre post l Hpre_lw Hs) as (Hcls & Hcfg & _).
    assert (Hlw1 : Forall (fun o => exists lw,
                      attr_int (f_config o) "line_width" = Some lw /\ 0 < lw)
                     (<[a0 := post]> h)).
    { apply Forall_insert; [exact Hlw |]. now rewrite Hcfg. }
    destruct (IH (S k) _ Hlw1 Hrun) as (Hlen & Hbound & Hobj).
    rewrite length_insert in Hlen, Hbound.
    split; [exact Hlen |]. split.
    + constructor; [eapply lookup_lt_Some; exact Hpre | exact Hbound].
    + intros a o Ha.
      destruct (decide (a = a0)) as [-> | Hne].
      * rewrite Hpre in Ha. injection Ha as <-.
        destruct (Hobj a0 post) as (o' & Ho' & Hc' & Hf' & _).
        { apply list_lookup_insert_eq. eapply lookup_lt_Some. exact Hpre. }
        exists o'. split; [exact Ho' |]. split; [congruence |]. split; [congruence |].
        intros Hnotin. exfalso. apply Hnotin. left.
      * destruct (Hobj a o) as (o' & Ho' & Hc' & Hf' & Hsame).
        { rewrite list_lookup_insert_ne by congruence. exact Ha. }
        exists o'. split; [exact Ho' |]. split; [exact Hc' |]. split; [exact Hf' |].
        intros Hnotin. apply Hsame. intros Hin. apply Hnotin. now right.
Qed.

End PassFacts.

Lemma run_pass_keeps_witness :
  let clock_feed := new_feed (sample_base 30) DatetimeFeed sample_clock in
  let shown := with_content clock_feed ["12:00 PM Wednesday, November 4th"] 0 in
  result (run_pass (H := sample_collaborators) sample_clock_readings 0 [0; 0]%nat
            [clock_feed]) = Some [shown] /\
  length [shown] = 1%nat /\
  f_config shown = f_config clock_feed.
Proof.
  intros clock_feed shown.
  assert (Hrun : result (run_pass (H := sample_collaborators) sample_clock_readings 0
                           [0; 0]%nat [clock_feed]) = Some [shown])
    by (vm_compute; reflexivity).
  split; [exact Hrun |].
  destruct (run_pass_keeps (H := sample_collaborators) sample_clock_readings
              [0; 0]%nat 0 [clock_feed] [shown]) as (Hlen & _ & Hobj).
  - repeat constructor. exists 40. split; [vm_compute; reflexivity | lia].
  - exact Hrun.
  - split; [exact Hlen |].
    destruct (Hobj 0%nat clock_feed eq_refl) as (o' & Ho' & _ & Hcfg & _).
    injection Ho' as <-. exact Hcfg.
Defined.

(** ** The timed output primitives *)





















(** ** The refresh gate and the header, further *)

(** X24. A refresh interval of zero minutes, or a negative one that
    [dt.timedelta] accepts, fetches at every [show] that reaches the gate,
    as long as the data is not stamped in the future. *)
Theorem show_always_fetches `{Collaborators} (o : feed) (R now nowc : Z) :
  f_class o <> DatetimeFeed ->
  rows_ok (f_config o) ->
  sleep_valid (f_config o) "subsegment_delay" ->
  attr_int (f_config o) "refresh" = Some R ->
  is_Some (attr (f_config o) "verbose_updates") ->
  is_Some (attr (f_config o) "update_message") ->
  -1439999998560 <= R <= 0 -> fetched_on (f_data o) <= now ->
  has_fetch (show now nowc o) = true.
Proof.
  intros Hcls Hrows Hsd HR Hv Hu Hzero Hpast.
  assert (Htd : timedelta_ok R = true).
  { unfold timedelta_ok. apply andb_true_intro. split; apply Z.leb_le; lia. }
  rewrite (has_fetch_show now nowc R) by assumption.
  unfold stale, minutes. apply Z.leb_le. lia.
Qed.

Lemma show_always_fetches_witness :
  has_fetch (show (H := sample_collaborators) sample_now sample_now
               (sample_news_feed 0
                  (Some (NewsSnap {| news_fetched_on := sample_now;
                                     news_items := sample_items |})))) = true.
Proof.
  destruct (sample_news_feed_ok 0
              (Some (NewsSnap {| news_fetched_on := sample_now;
                                 news_items := sample_items |})))
    as (Hrows & Hsd & _).
  apply (show_always_fetches (H := sample_collaborators)
           (sample_news_feed 0
              (Some (NewsSnap {| news_fetched_on := sample_now;
                                 news_items := sample_items |})))
           0 sample_now sample_now
           ltac:(discriminate) Hrows Hsd eq_refl
           ltac:(vm_compute; eauto) ltac:(vm_compute; eauto)
           ltac:(lia) ltac:(vm_compute; congruence)).
Defined.

Lemma is_space_upper_char (c : ascii) : Py.is_space (Py.upper_char c) = Py.is_space c.
Proof. destruct c as [[] [] [] [] [] [] [] []]; reflexivity. Qed.

Lemma upper_char_idemp (c : ascii) : Py.upper_char (Py.upper_char c) = Py.upper_char c.
Proof. destruct c as [[] [] [] [] [] [] [] []]; reflexivity. Qed.

Lemma upper_idemp (s : string) : Py.upper (Py.upper s) = Py.upper s.
Proof.
  induction s as [| c s IH]; [reflexivity |].
  cbn [Py.upper]. now rewrite upper_char_idemp, IH.
Qed.

Lemma lstrip_upper (s : string) : Py.lstrip (Py.upper s) = Py.upper (Py.lstrip s).
Proof.
  induction s as [| c s IH]; [reflexivity |].
  cbn [Py.upper Py.lstrip]. rewrite is_space_upper_char.
  destruct (Py.is_space c); [exact IH | reflexivity].
Qed.

Lemma rstrip_upper (s : string) : Py.rstrip (Py.upper s) = Py.upper (Py.rstrip s).
Proof.
  induction s as [| c s IH]; [reflexivity |].
  cbn [Py.upper Py.rstrip]. rewrite IH, is_space_upper_char.
  destruct (Py.rstrip s); cbn [Py.upper]; [| reflexivity].
  destruct (Py.is_space c); reflexivity.
Qed.

Lemma rstrip_idemp (s : string) : Py.rstrip (Py.rstrip s) = Py.rstrip s.
Proof.
  induction s as [| c s IH]; [reflexivity |].
  cbn [Py.rstrip].
  destruct (Py.rstrip s) as [| c' r] eqn:Hr.
  - destruct (Py.is_space c) eqn:Hc; [reflexivity |].
    cbn [Py.rstrip]. now rewrite Hc.
  - cbn [Py.rstrip] in *. now rewrite IH.
Qed.

Lemma lstrip_head (s : string) :
  match Py.lstrip s with
  | EmptyString => True
  | String c _ => Py.is_space c = false
  end.
Proof.
  induction s as [| c s IH]; [exact I |].
  cbn [Py.lstrip]. destruct (Py.is_space c) eqn:Hc; [exact IH | exact Hc].
Qed.

Lemma lstrip_rstrip (s : string) :
  match s with
  | EmptyString => True
  | String c _ => Py.is_space c = false
  end ->
  Py.lstrip (Py.rstrip s) = Py.rstrip s.
Proof.
  destruct s as [| c s]; [reflexivity |]. intros Hc.
  cbn [Py.rstrip]. destruct (Py.rstrip s); rewrite ?Hc; cbn [Py.lstrip]; now rewrite Hc.
Qed.

Lemma strip_idemp (s : string) : Py.strip (Py.strip s) = Py.strip s.
Proof.
  unfold Py.strip.
  rewrite (lstrip_rstrip (Py.lstrip s) (lstrip_head s)).
  apply rstrip_idemp.
Qed.

Lemma strip_upper (s : string) : Py.strip (Py.upper s) = Py.upper (Py.strip s).
Proof. unfold Py.strip. now rewrite lstrip_upper, rstrip_upper. Qed.

(** X25. The header does not depend on the case of the ASCII letters of
    the title nor on the whitespace around it: the title as normalised by
    [_get_header] (trimmed, uppercased) gives the same header as the title
    itself, and so does the title trimmed or uppercased beforehand. *)
Theorem get_header_normalised (lw : Z) (l t r : string) :
  get_header lw (l, Py.upper (Py.strip t), r) = get_header lw (l, t, r) /\
  get_header lw (l, Py.strip t, r) = get_header lw (l, t, r) /\
  get_header lw (l, Py.upper t, r) = get_header lw (l, t, r).
Proof.
  unfold get_header.
  rewrite (strip_upper (Py.strip t)), strip_idemp, upper_idemp.
  rewrite (strip_upper t), upper_idemp.
  repeat split; reflexivity.
Qed.
